(** * Purchase Order API (backend/main.py): a shallow embedding

    The FastAPI/SQLAlchemy service is modelled as follows.
    - The table [purchase_orders] is a list of rows together with the
      value of its id sequence (SERIAL, starting at 1).
    - A request runs in a state and error monad [M] over a [World] that
      holds the table and the trace of session events (acquire, queries,
      mutations, commit, close), so that the scoped session of [get_db]
      and the order of queries are visible.
    - Python exceptions ([HTTPException], FastAPI's
      [RequestValidationError], [OverflowError], and what the database
      driver raises on an INSERT or a SELECT it cannot run) are the error
      side of [M].
    - Python floats are Rocq's primitive binary64 floats; Python strings
      are lists of code points; dates are day numbers (they are only
      copied). *)

From Stdlib Require Import ZArith List String Ascii Bool Lia.
From Stdlib Require Import Sorting.Permutation Sorting.Sorted.
From Stdlib Require Import Floats.PrimFloat Floats.SpecFloat Floats.FloatOps.
Import ListNotations.
Open Scope Z_scope.

(** ** Data model *)

(** A Python [str]: its code points. *)
Definition PyStr := list Z.

(** The [str] of an ASCII literal. *)
Definition py_str (s : string) : PyStr :=
  map (fun a => Z.of_nat (nat_of_ascii a)) (list_ascii_of_string s).

(** SQLAlchemy model [PurchaseOrder] (also the shape of
    [PurchaseOrderResponse], which lists the same fields). *)
Record PurchaseOrder := mkPurchaseOrder {
  id : Z;
  item_name : PyStr;
  order_date : Z;
  delivery_date : Z;
  quantity : Z;
  unit_price : float;
  total_price : float
}.

(** Pydantic model [PurchaseOrderCreate] (= [PurchaseOrderBase]). *)
Record PurchaseOrderCreate := mkPurchaseOrderCreate {
  c_item_name : PyStr;
  c_order_date : Z;
  c_delivery_date : Z;
  c_quantity : Z;
  c_unit_price : float
}.

(** [SimplePaginatedPurchaseOrderResponse] (v1 and legacy lists). *)
Record SimplePaginatedPurchaseOrderResponse := mkSimplePage {
  sp_data : list PurchaseOrder;
  sp_total : Z;
  sp_page : Z;
  sp_per_page : Z;
  sp_total_pages : Z
}.

(** [PaginatedPurchaseOrderResponse] (v2 list). *)
Record PaginatedPurchaseOrderResponse := mkCursorPage {
  cp_data : list PurchaseOrder;
  cp_next_cursor : option Z;
  cp_has_more : bool
}.

(** Response bodies. *)
Inductive Body :=
| BOrder (o : PurchaseOrder)
| BSimplePage (p : SimplePaginatedPurchaseOrderResponse)
| BCursorPage (p : PaginatedPurchaseOrderResponse)
| BEmpty
| BDetail (detail : string)
| BValidationError
| BServerError.

Record Response := mkResponse { status : Z; body : Body }.

(** The stored table and its id sequence. *)
Record Table := mkTable { rows : list PurchaseOrder; next_id : Z }.

(** What a request does to its storage session. *)
Inductive Event :=
| Acquire          (* SessionLocal() *)
| QCount           (* SELECT count(...) *)
| QSelect          (* SELECT ... *)
| QInsert          (* INSERT ... *)
| QDelete          (* DELETE ... *)
| Commit           (* db.commit() *)
| Release.         (* db.close() *)

Record World := mkWorld { db : Table; trace : list Event }.

(** Exceptions that can leave a handler. *)
Inductive Exc :=
| HTTPException (status_code : Z) (detail : string)
| RequestValidationError
| OverflowError
| DataError            (* psycopg2.DataError: a value out of a column's range *)
| ValueError           (* psycopg2: a NUL character in a string literal *)
| UnicodeEncodeError.  (* a str that UTF-8 cannot encode (lone surrogate) *)

Inductive Result (A : Type) := Ok (a : A) | Err (e : Exc).
Arguments Ok {A} a.
Arguments Err {A} e.

(** ** The request monad *)

Definition M (A : Type) := World -> Result A * World.

Definition ret {A} (a : A) : M A := fun w => (Ok a, w).
Definition raise {A} (e : Exc) : M A := fun w => (Err e, w).
Definition bind {A B} (m : M A) (k : A -> M B) : M B :=
  fun w => match m w with
           | (Ok a, w') => k a w'
           | (Err e, w') => (Err e, w')
           end.

Notation "x <- m ;; k" := (bind m (fun x => k))
  (at level 61, m at next level, right associativity).
Notation "m ;;; k" := (bind m (fun _ => k))
  (at level 61, right associativity).

Definition log (e : Event) : M unit :=
  fun w => (Ok tt, mkWorld (db w) (trace w ++ [e])).

Definition get_table : M Table := fun w => (Ok (db w), w).

Definition put_table (t : Table) : M unit :=
  fun w => (Ok tt, mkWorld t (trace w)).

(** ** Python helpers *)

(** [float(n)] for a Python int (PyLong_AsDouble): rounded to nearest,
    ties to even; [OverflowError] when the result does not fit. *)
Definition float_of_int (n : Z) : Result float :=
  match binary_normalize prec emax n 0 false with
  | S754_infinity _ => Err OverflowError
  | f => Ok (SF2Prim f)
  end.

(** [n * x] for a Python int [n] and float [x]. *)
Definition py_mul_int_float (n : Z) (x : float) : Result float :=
  match float_of_int n with
  | Ok f => Ok (PrimFloat.mul f x)
  | Err e => Err e
  end.

Definition lift {A} (r : Result A) : M A :=
  match r with Ok a => ret a | Err e => raise e end.

(** [l[-1]] of a non-empty list. *)
Fixpoint last_opt {A} (l : list A) : option A :=
  match l with
  | [] => None
  | [x] => Some x
  | _ :: l' => last_opt l'
  end.

(** ** Storage (SQLAlchemy queries on [purchase_orders]) *)

(** [ORDER BY id]: insertion sort on the id. *)
Fixpoint insert_by_id (x : PurchaseOrder) (l : list PurchaseOrder) :=
  match l with
  | [] => [x]
  | y :: l' => if id x <=? id y then x :: y :: l' else y :: insert_by_id x l'
  end.

Fixpoint order_by_id (l : list PurchaseOrder) : list PurchaseOrder :=
  match l with
  | [] => []
  | x :: l' => insert_by_id x (order_by_id l')
  end.

(** [filter(PurchaseOrder.id > cursor)] when a cursor is given. *)
Definition after (cursor : option Z) (r : PurchaseOrder) : bool :=
  match cursor with
  | None => true
  | Some c => c <? id r
  end.

(** [db.query(PurchaseOrder).count()] *)
Definition query_count : M Z :=
  log QCount ;;; t <- get_table ;; ret (Z.of_nat (List.length (rows t))).

(** PostgreSQL's [integer] (the [Integer] columns and the SERIAL
    sequence of [id]) and [bigint] (the type of OFFSET and LIMIT). *)
Definition int4_min : Z := -2147483648.
Definition int4_max : Z := 2147483647.
Definition int8_max : Z := 9223372036854775807.

(** [db.query(PurchaseOrder).order_by(id)[.filter(id > cursor)]
     .offset(off).limit(lim).all()]: the server refuses an OFFSET or a
    LIMIT beyond [bigint] (DataError: bigint out of range). *)
Definition query_ordered (cursor : option Z) (off lim : Z)
  : M (list PurchaseOrder) :=
  log QSelect ;;;
  if (int8_max <? off) || (int8_max <? lim) then raise DataError
  else
    t <- get_table ;;
    ret (firstn (Z.to_nat lim)
           (skipn (Z.to_nat off) (filter (after cursor) (order_by_id (rows t))))).

(** [db.query(PurchaseOrder).filter(PurchaseOrder.id == k).first()] *)
Definition query_first_by_id (k : Z) : M (option PurchaseOrder) :=
  log QSelect ;;; t <- get_table ;;
  ret (find (fun r => id r =? k) (rows t)).

(** A code point UTF-8 can encode: not a surrogate. *)
Definition utf8_encodable (c : Z) : bool := negb ((55296 <=? c) && (c <=? 57343)).

(** Why the INSERT of row [r] (id from the sequence, now at [next_id t])
    fails, if it does:
    - psycopg2 encodes [item_name] to UTF-8 (UnicodeEncodeError on a lone
      surrogate) and refuses a string literal holding a NUL (ValueError),
      before anything is sent;
    - the server refuses a [quantity] outside [integer] (DataError), when
      it plans the statement, before [nextval] runs;
    - [nextval] of the SERIAL sequence fails past [int4_max] (DataError).
    A failed INSERT stores nothing and leaves the sequence where it was. *)
Definition insert_error (t : Table) (r : PurchaseOrder) : option Exc :=
  if negb (forallb utf8_encodable (item_name r)) then Some UnicodeEncodeError
  else if existsb (fun c => c =? 0) (item_name r) then Some ValueError
  else if negb ((int4_min <=? quantity r) && (quantity r <=? int4_max))
  then Some DataError
  else if int4_max <? next_id t then Some DataError
  else None.

(** [db.add(o); db.commit(); db.refresh(o)]: the commit flushes the
    INSERT, the sequence gives the id; the refresh reads the stored row
    back, which is [r] itself. *)
Definition add_commit_refresh (o : PurchaseOrderCreate) (tp : float)
  : M PurchaseOrder :=
  t <- get_table ;;
  let r := mkPurchaseOrder (next_id t) (c_item_name o) (c_order_date o)
             (c_delivery_date o) (c_quantity o) (c_unit_price o) tp in
  log QInsert ;;;
  match insert_error t r with
  | Some e => raise e
  | None =>
      put_table (mkTable (rows t ++ [r]) (next_id t + 1)) ;;;
      log Commit ;;;
      log QSelect ;;;
      ret r
  end.

(** [db.delete(o); db.commit()]: [DELETE ... WHERE id = o.id]. *)
Definition delete_commit (o : PurchaseOrder) : M unit :=
  t <- get_table ;;
  log QDelete ;;;
  put_table (mkTable (filter (fun x => negb (id x =? id o)) (rows t))
                     (next_id t)) ;;;
  log Commit.

(** ** Endpoint handlers *)

Definition not_found {A} : M A :=
  raise (HTTPException 404 "Purchase order not found").

(** *** V1 *)

Definition get_purchase_orders_v1 (page per_page : Z) : M Body :=
  let offset := (page - 1) * per_page in
  total <- query_count ;;
  orders <- query_ordered None offset per_page ;;
  let total_pages := (total + per_page - 1) / per_page in
  ret (BSimplePage (mkSimplePage orders total page per_page total_pages)).

Definition get_purchase_order_v1 (order_id : Z) : M Body :=
  order <- query_first_by_id order_id ;;
  match order with
  | None => not_found
  | Some o => ret (BOrder o)
  end.

Definition create_purchase_order_v1 (order : PurchaseOrderCreate) : M Body :=
  total_price <- lift (py_mul_int_float (c_quantity order) (c_unit_price order)) ;;
  db_order <- add_commit_refresh order total_price ;;
  ret (BOrder db_order).

Definition delete_purchase_order_v1 (order_id : Z) : M Body :=
  order <- query_first_by_id order_id ;;
  match order with
  | None => not_found
  | Some o => delete_commit o ;;; ret BEmpty
  end.

(** *** V2 *)

Definition get_purchase_orders_v2 (cursor : option Z) (limit : Z) : M Body :=
  orders <- query_ordered cursor 0 (limit + 1) ;;
  let has_more := Z.of_nat (List.length orders) >? limit in
  let orders := if has_more then firstn (Z.to_nat limit) orders else orders in
  let next_cursor :=
    match orders with
    | [] => None
    | _ :: _ => if has_more then option_map id (last_opt orders) else None
    end in
  ret (BCursorPage (mkCursorPage orders next_cursor has_more)).

Definition get_purchase_order_v2 (order_id : Z) : M Body :=
  order <- query_first_by_id order_id ;;
  match order with
  | None => not_found
  | Some o => ret (BOrder o)
  end.

Definition create_purchase_order_v2 (order : PurchaseOrderCreate) : M Body :=
  total_price <- lift (py_mul_int_float (c_quantity order) (c_unit_price order)) ;;
  db_order <- add_commit_refresh order total_price ;;
  ret (BOrder db_order).

Definition delete_purchase_order_v2 (order_id : Z) : M Body :=
  order <- query_first_by_id order_id ;;
  match order with
  | None => not_found
  | Some o => delete_commit o ;;; ret BEmpty
  end.

(** *** Legacy: calls to the v1 handlers *)

Definition get_purchase_orders_legacy (page per_page : Z) : M Body :=
  get_purchase_orders_v1 page per_page.

Definition get_purchase_order_legacy (order_id : Z) : M Body :=
  get_purchase_order_v1 order_id.

Definition create_purchase_order_legacy (order : PurchaseOrderCreate) : M Body :=
  create_purchase_order_v1 order.

Definition delete_purchase_order_legacy (order_id : Z) : M Body :=
  delete_purchase_order_v1 order_id.

(** ** Requests, validation and routing (FastAPI) *)

(** A raw query or path value, as pydantic's [int] coercion sees it: the
    text either denotes an integer or it does not. *)
Inductive Raw := RInt (z : Z) | RNonInt.

(** The body of a POST, as FastAPI reads it. *)
Inductive RawBody :=
| BodyOk (o : PurchaseOrderCreate)  (* read, and validates as [PurchaseOrderCreate] *)
| BodyInvalid      (* read (JSON, empty, or another content type), does not validate *)
| BodyNotJson      (* JSON content type, text [json.loads] rejects (JSONDecodeError) *)
| BodyUndecodable. (* JSON content type, bytes [json.loads] cannot decode
                      (e.g. UnicodeDecodeError) *)

(** The query string of a list request, by key ([None]: key absent). *)
Record QueryParams := mkQuery {
  q_page : option Raw;
  q_per_page : option Raw;
  q_cursor : option Raw;
  q_limit : option Raw
}.

Inductive Version := Legacy | V1 | V2.

Inductive Request :=
| ListReq (v : Version) (q : QueryParams)      (* GET  {prefix}/purchase-orders *)
| GetReq (v : Version) (order_id : Raw)        (* GET  {prefix}/purchase-orders/{id} *)
| PostReq (v : Version) (b : RawBody)          (* POST {prefix}/purchase-orders *)
| DeleteReq (v : Version) (order_id : Raw).    (* DELETE {prefix}/purchase-orders/{id} *)

(** [Query(default, ge=lo, le=hi)] on an [int] parameter. *)
Definition query_int (default lo : Z) (hi : option Z) (p : option Raw) : M Z :=
  match p with
  | None => ret default
  | Some RNonInt => raise RequestValidationError
  | Some (RInt z) =>
      if (lo <=? z) && match hi with None => true | Some h => z <=? h end
      then ret z else raise RequestValidationError
  end.

(** [Query(None)] on an [Optional[int]] parameter. *)
Definition query_opt_int (p : option Raw) : M (option Z) :=
  match p with
  | None => ret None
  | Some RNonInt => raise RequestValidationError
  | Some (RInt z) => ret (Some z)
  end.

(** A path parameter annotated [int]. *)
Definition path_int (p : Raw) : M Z :=
  match p with
  | RInt z => ret z
  | RNonInt => raise RequestValidationError
  end.

(** Validation of the body read as [PurchaseOrderCreate]. ([BodyNotJson]
    and [BodyUndecodable] never get here: see [parse_body].) *)
Definition body_create (b : RawBody) : M PurchaseOrderCreate :=
  match b with
  | BodyOk o => ret o
  | _ => raise RequestValidationError
  end.

(** The endpoint a request reaches, with its parameters validated first and
    the decorator's status code. *)
Definition endpoint (req : Request) : M (Z * Body) :=
  match req with
  | ListReq Legacy q =>
      page <- query_int 1 1 None (q_page q) ;;
      per_page <- query_int 10 1 (Some 100) (q_per_page q) ;;
      b <- get_purchase_orders_legacy page per_page ;; ret (200, b)
  | ListReq V1 q =>
      page <- query_int 1 1 None (q_page q) ;;
      per_page <- query_int 10 1 (Some 100) (q_per_page q) ;;
      b <- get_purchase_orders_v1 page per_page ;; ret (200, b)
  | ListReq V2 q =>
      cursor <- query_opt_int (q_cursor q) ;;
      limit <- query_int 10 1 (Some 100) (q_limit q) ;;
      b <- get_purchase_orders_v2 cursor limit ;; ret (200, b)
  | GetReq v p =>
      k <- path_int p ;;
      b <- match v with
           | Legacy => get_purchase_order_legacy k
           | V1 => get_purchase_order_v1 k
           | V2 => get_purchase_order_v2 k
           end ;; ret (200, b)
  | PostReq v rb =>
      o <- body_create rb ;;
      b <- match v with
           | Legacy => create_purchase_order_legacy o
           | V1 => create_purchase_order_v1 o
           | V2 => create_purchase_order_v2 o
           end ;; ret (201, b)
  | DeleteReq v p =>
      k <- path_int p ;;
      b <- match v with
           | Legacy => delete_purchase_order_legacy k
           | V1 => delete_purchase_order_v1 k
           | V2 => delete_purchase_order_v2 k
           end ;; ret (204, b)
  end.

(** [get_db]: [db = SessionLocal(); try: yield db; finally: db.close()].
    FastAPI solves this dependency after it has read and parsed the body
    (see [parse_body]) and before it validates the path and query
    parameters and the parsed body, and runs the [finally] when the
    endpoint raises. *)
Definition get_db {A} (k : M A) : M A :=
  fun w =>
    let '(_, w1) := log Acquire w in
    let '(r, w2) := k w1 in
    let '(_, w3) := log Release w2 in
    (r, w3).

(** FastAPI's exception handlers. *)
Definition to_response (r : Result (Z * Body)) : Response :=
  match r with
  | Ok (code, b) => mkResponse code b
  | Err (HTTPException code d) => mkResponse code (BDetail d)
  | Err RequestValidationError => mkResponse 422 BValidationError
  | Err OverflowError => mkResponse 500 BServerError
  | Err DataError => mkResponse 500 BServerError
  | Err ValueError => mkResponse 500 BServerError
  | Err UnicodeEncodeError => mkResponse 500 BServerError
  end.

(** FastAPI reads and parses a JSON body before it solves the
    dependencies: text that is not JSON raises [RequestValidationError],
    any other failure to parse is answered 400. *)
Definition parse_body (req : Request) : Result unit :=
  match req with
  | PostReq _ BodyNotJson => Err RequestValidationError
  | PostReq _ BodyUndecodable =>
      Err (HTTPException 400 "There was an error parsing the body")
  | _ => Ok tt
  end.

(** One request served against the world. *)
Definition serve (req : Request) (w : World) : Response * World :=
  match parse_body req with
  | Err e => (to_response (Err e), w)
  | Ok _ => let '(r, w') := get_db (endpoint req) w in (to_response r, w')
  end.

(** ** Client side of the claims *)

(** A v2 list request carrying only [cursor] and [limit]. *)
Definition v2_query (cursor : option Z) (limit : Z) : QueryParams :=
  mkQuery None None (option_map RInt cursor) (Some (RInt limit)).


(** A legacy or v1 list request carrying only [page] and [per_page]. *)
Definition offset_query (page per_page : Z) : QueryParams :=
  mkQuery (Some (RInt page)) (Some (RInt per_page)) None None.


(** Run requests one after the other. *)
Fixpoint serve_all (reqs : list Request) (w : World) : World :=
  match reqs with
  | [] => w
  | r :: reqs' => serve_all reqs' (snd (serve r w))
  end.

(** Requests that only read: list and single-item GET. *)
Definition is_read (req : Request) : bool :=
  match req with
  | ListReq _ _ | GetReq _ _ => true
  | _ => false
  end.

(** A well-formed table: ids unique (primary key) and below the sequence. *)
Definition wf_table (t : Table) : Prop :=
  NoDup (map id (rows t)) /\ Forall (fun r => id r < next_id t) (rows t).

(** Sample data: three stored rows, not in id order. *)
Definition sample_row (k : Z) : PurchaseOrder :=
  mkPurchaseOrder k (py_str "Widget") 19723 19732 4 2.5%float 10%float.

Definition sample_world : World :=
  mkWorld (mkTable [sample_row 3; sample_row 1; sample_row 2] 4) [].

(** The order of the spec's scenarios. *)
Definition widget : PurchaseOrderCreate :=
  mkPurchaseOrderCreate (py_str "Widget") 19723 19732 4 2.5%float.

Definition empty_world : World := mkWorld (mkTable [] 1) [].

(** ** Lemmas: [ORDER BY id] *)

Definition id_le (a b : PurchaseOrder) : Prop := id a <= id b.
Definition id_lt (a b : PurchaseOrder) : Prop := id a < id b.

Lemma insert_by_id_perm x l : Permutation (insert_by_id x l) (x :: l).
Proof.
  induction l as [|y l IH]; simpl; [auto|].
  destruct (id x <=? id y); [auto|].
  eapply perm_trans; [apply perm_skip, IH| apply perm_swap].
Qed.

Lemma order_by_id_perm l : Permutation (order_by_id l) l.
Proof.
  induction l as [|x l IH]; simpl; [auto|].
  eapply perm_trans; [apply insert_by_id_perm| auto].
Qed.

Lemma insert_by_id_sorted x l :
  Sorted id_le l -> Sorted id_le (insert_by_id x l).
Proof.
  induction 1 as [|y l Hs IH Hhd]; simpl; [auto|].
  destruct (id x <=? id y) eqn:E.
  - apply Z.leb_le in E. constructor; [constructor; auto| constructor; exact E].
  - apply Z.leb_gt in E. constructor; [exact IH|].
    destruct l as [|z l]; simpl.
    + constructor. unfold id_le; lia.
    + inversion Hhd; subst. destruct (id x <=? id z); constructor;
        unfold id_le in *; lia.
Qed.

Lemma order_by_id_sorted l : Sorted id_le (order_by_id l).
Proof.
  induction l; simpl; auto using insert_by_id_sorted.
Qed.

Lemma id_le_trans : Relations_1.Transitive id_le.
Proof. unfold Relations_1.Transitive, id_le; intros; lia. Qed.

Lemma insert_by_id_head x t :
  Forall (fun z => id x <= id z) t -> insert_by_id x t = x :: t.
Proof.
  destruct t as [|z t]; simpl; [auto|]. intros H; inversion H; subst.
  destruct (id x <=? id z) eqn:E; [auto| apply Z.leb_gt in E; lia].
Qed.

Lemma filter_insert_by_id (p : PurchaseOrder -> bool) x s :
  Sorted id_le s ->
  filter p (insert_by_id x s) =
  if p x then insert_by_id x (filter p s) else filter p s.
Proof.
  induction s as [|y s IH]; intros Hs.
  - simpl. destruct (p x); reflexivity.
  - assert (Hss := Sorted_StronglySorted id_le_trans Hs).
    inversion Hss as [|? ? Hs' Hall]; subst.
    destruct (id x <=? id y) eqn:E.
    + apply Z.leb_le in E.
      assert (Hx : Forall (fun z => id x <= id z) (filter p (y :: s))).
      { apply Forall_forall. intros z Hz. apply filter_In in Hz as [Hz _].
        destruct Hz as [<-|Hz]; [exact E|].
        rewrite Forall_forall in Hall. specialize (Hall z Hz).
        unfold id_le in Hall; lia. }
      rewrite (insert_by_id_head _ _ Hx).
      replace (insert_by_id x (y :: s)) with (x :: y :: s)
        by (simpl; rewrite (proj2 (Z.leb_le _ _) E); reflexivity).
      cbn [filter]. destruct (p x); reflexivity.
    + replace (insert_by_id x (y :: s)) with (y :: insert_by_id x s)
        by (simpl; rewrite E; reflexivity).
      cbn [filter]. rewrite (IH (proj1 (Sorted_inv Hs))).
      destruct (p y), (p x); cbn [insert_by_id]; rewrite ?E; reflexivity.
Qed.

(** Ordering and filtering commute. *)
Lemma filter_order_by_id (p : PurchaseOrder -> bool) l :
  filter p (order_by_id l) = order_by_id (filter p l).
Proof.
  induction l as [|x l IH]; simpl; [reflexivity|].
  rewrite filter_insert_by_id by apply order_by_id_sorted.
  rewrite IH. destruct (p x); reflexivity.
Qed.

(** ** Lemmas: the v2 lookahead *)

Lemma lookahead_split (m : list PurchaseOrder) (limit : Z) :
  1 <= limit ->
  (Z.of_nat (List.length (firstn (Z.to_nat (limit + 1)) m)) >? limit)
    = (Z.of_nat (List.length m) >? limit) /\
  (if Z.of_nat (List.length m) >? limit
   then firstn (Z.to_nat limit) (firstn (Z.to_nat (limit + 1)) m)
        = firstn (Z.to_nat limit) m
   else firstn (Z.to_nat (limit + 1)) m = m).
Proof.
  intros Hl. rewrite length_firstn, firstn_firstn.
  destruct (Z.of_nat (List.length m) >? limit) eqn:E.
  - apply Z.gtb_lt in E. split.
    + apply Z.gtb_lt. lia.
    + f_equal. lia.
  - rewrite Z.gtb_ltb, Z.ltb_ge in E. split.
    + rewrite Z.gtb_ltb, Z.ltb_ge. lia.
    + apply firstn_all2. lia.
Qed.


Ltac bounds_true :=
  repeat match goal with
  | |- context [?a <=? ?b] =>
      let E := fresh in
      assert (E : (a <=? b) = true) by (apply Z.leb_le; lia); rewrite E; clear E
  | |- context [?a <? ?b] =>
      let E := fresh in
      assert (E : (a <? b) = false)
        by (apply Z.ltb_ge; unfold int8_max in *; lia); rewrite E; clear E
  end.

(** The v2 list endpoint on validated parameters. *)
Lemma serve_list_v2 (w : World) (qp : QueryParams) (cursor : option Z) (limit : Z) :
  q_cursor qp = option_map RInt cursor ->
  q_limit qp = Some (RInt limit) ->
  1 <= limit <= 100 ->
  let matching := order_by_id (filter (after cursor) (rows (db w))) in
  let has_more := Z.of_nat (List.length matching) >? limit in
  let data := if has_more then firstn (Z.to_nat limit) matching else matching in
  serve (ListReq V2 qp) w =
    (mkResponse 200 (BCursorPage (mkCursorPage data
        (match data with
         | [] => None
         | _ :: _ => if has_more then option_map id (last_opt data) else None
         end) has_more)),
     mkWorld (db w) (trace w ++ [Acquire; QSelect; Release])).
Proof.
  intros Hc Hl Hb. destruct qp as [p pp c l]; simpl in Hc, Hl; subst.
  unfold serve, get_db, endpoint.
  destruct cursor; cbn; bounds_true; unfold get_purchase_orders_v2, query_ordered;
    cbn; bounds_true; cbn;
    rewrite filter_order_by_id;
    match goal with |- context [order_by_id (filter ?f ?r)] =>
      set (m := order_by_id (filter f r)) end;
    destruct (lookahead_split m limit) as [H1 H2]; try lia;
    rewrite H1; destruct (Z.of_nat (List.length m) >? limit); rewrite H2;
    rewrite <- !app_assoc; reflexivity.
Qed.

(** ** Lemmas: strictly increasing ids *)

Lemma filter_all_true {A} (p : A -> bool) l :
  (forall x, In x l -> p x = true) -> filter p l = l.
Proof.
  induction l as [|a l IH]; intros H; simpl; [reflexivity|].
  rewrite (H a (or_introl eq_refl)), IH; [reflexivity|].
  intros x Hx; apply H; right; exact Hx.
Qed.

Lemma filter_all_false {A} (p : A -> bool) l :
  (forall x, In x l -> p x = false) -> filter p l = [].
Proof.
  induction l as [|a l IH]; intros H; simpl; [reflexivity|].
  rewrite (H a (or_introl eq_refl)). apply IH.
  intros x Hx; apply H; right; exact Hx.
Qed.


Lemma order_by_id_strict l :
  NoDup (map id l) -> StronglySorted id_lt (order_by_id l).
Proof.
  intros Hnd.
  assert (Hnd' : NoDup (map id (order_by_id l))).
  { eapply Permutation_NoDup; [|exact Hnd].
    apply Permutation_map, Permutation_sym, order_by_id_perm. }
  assert (Hss := Sorted_StronglySorted id_le_trans (order_by_id_sorted l)).
  clear Hnd. induction Hss as [|a s Hs IH Hall]; constructor.
  - apply IH. inversion Hnd'; assumption.
  - inversion Hnd' as [|? ? Hnin _]; subst.
    rewrite Forall_forall in *. intros x Hx. specialize (Hall x Hx).
    unfold id_le, id_lt in *.
    assert (id a <> id x); [|lia].
    intros E. apply Hnin. rewrite E. apply in_map, Hx.
Qed.

Lemma last_opt_max (l : list PurchaseOrder) r :
  StronglySorted id_lt l -> last_opt l = Some r ->
  In r l /\ forall x, In x l -> id x <= id r.
Proof.
  induction 1 as [|a l Hs IH Hall]; [discriminate|]. intros Hr.
  destruct l as [|b l].
  - simpl in Hr. injection Hr as <-. split; [left; reflexivity|].
    intros x [<-|[]]. lia.
  - destruct (IH Hr) as [Hin Hmax]. split; [right; exact Hin|].
    intros x [<-|Hx]; [|apply Hmax, Hx].
    rewrite Forall_forall in Hall. specialize (Hall r Hin).
    unfold id_lt in Hall. lia.
Qed.

Lemma StronglySorted_app_lt l1 l2 :
  StronglySorted id_lt (l1 ++ l2) ->
  forall x y, In x l1 -> In y l2 -> id x < id y.
Proof.
  induction l1 as [|a l1 IH]; simpl; [contradiction|].
  intros Hs. inversion Hs as [|? ? Hs' Hall]; subst.
  intros x y [<-|Hx] Hy.
  - rewrite Forall_forall in Hall. apply Hall, in_or_app. right; exact Hy.
  - apply IH; assumption.
Qed.

(** After a page ending at [r], the rows above [id r] are the rest. *)
Lemma filter_after_page (P B : list PurchaseOrder) r :
  StronglySorted id_lt (P ++ B) -> last_opt P = Some r ->
  filter (after (Some (id r))) (P ++ B) = B.
Proof.
  intros Hs Hr.
  assert (HsP : StronglySorted id_lt P).
  { clear Hr. induction P as [|a P IH]; simpl in *; [constructor|].
    inversion Hs as [|? ? Hs' Hall]; subst. constructor; [auto|].
    rewrite Forall_forall in *. intros x Hx. apply Hall, in_or_app; auto. }
  destruct (last_opt_max P r HsP Hr) as [Hin Hmax].
  rewrite filter_app.
  replace (filter (after (Some (id r))) P) with (@nil PurchaseOrder).
  - simpl. apply filter_all_true. intros y Hy. simpl.
    apply Z.ltb_lt. exact (StronglySorted_app_lt P B Hs r y Hin Hy).
  - symmetry. apply filter_all_false. intros x Hx. simpl.
    apply Z.ltb_ge. apply Hmax, Hx.
Qed.


(** ** Lemmas: the v2 client loop *)


(** ** Lemmas: single-item requests *)

Ltac unfold_request :=
  unfold serve, get_db, endpoint, path_int, body_create,
    get_purchase_order_legacy, delete_purchase_order_legacy,
    create_purchase_order_legacy,
    get_purchase_order_v1, get_purchase_order_v2,
    delete_purchase_order_v1, delete_purchase_order_v2,
    create_purchase_order_v1, create_purchase_order_v2,
    query_first_by_id, add_commit_refresh, delete_commit, not_found,
    lift, bind, ret, raise, log, get_table, put_table.

Definition not_found_response : Response :=
  mkResponse 404 (BDetail "Purchase order not found").

Lemma serve_get (v : Version) (w : World) (k : Z) :
  serve (GetReq v (RInt k)) w =
  (match find (fun r => id r =? k) (rows (db w)) with
   | None => not_found_response
   | Some o => mkResponse 200 (BOrder o)
   end, mkWorld (db w) (trace w ++ [Acquire; QSelect; Release])).
Proof.
  destruct v; unfold_request; cbn;
    destruct (find (fun r => id r =? k) (rows (db w))); cbn;
    rewrite <- ?app_assoc; reflexivity.
Qed.

Lemma serve_delete (v : Version) (w : World) (k : Z) :
  serve (DeleteReq v (RInt k)) w =
  match find (fun r => id r =? k) (rows (db w)) with
  | None => (not_found_response,
             mkWorld (db w) (trace w ++ [Acquire; QSelect; Release]))
  | Some o => (mkResponse 204 BEmpty,
               mkWorld (mkTable (filter (fun x => negb (id x =? id o)) (rows (db w)))
                                (next_id (db w)))
                       (trace w ++ [Acquire; QSelect; QDelete; Commit; Release]))
  end.
Proof.
  destruct v; unfold_request; cbn;
    destruct (find (fun r => id r =? k) (rows (db w))); cbn;
    rewrite <- ?app_assoc; reflexivity.
Qed.

(** The row a create stores. *)
Definition created_row (t : Table) (o : PurchaseOrderCreate) (tp : float) :=
  mkPurchaseOrder (next_id t) (c_item_name o) (c_order_date o)
    (c_delivery_date o) (c_quantity o) (c_unit_price o) tp.

Lemma serve_post (v : Version) (w : World) (o : PurchaseOrderCreate) :
  serve (PostReq v (BodyOk o)) w =
  match py_mul_int_float (c_quantity o) (c_unit_price o) with
  | Ok tp =>
      match insert_error (db w) (created_row (db w) o tp) with
      | None =>
          (mkResponse 201 (BOrder (created_row (db w) o tp)),
           mkWorld (mkTable (rows (db w) ++ [created_row (db w) o tp])
                            (next_id (db w) + 1))
                   (trace w ++ [Acquire; QInsert; Commit; QSelect; Release]))
      | Some e =>
          (to_response (Err e), mkWorld (db w) (trace w ++ [Acquire; QInsert; Release]))
      end
  | Err e => (to_response (Err e), mkWorld (db w) (trace w ++ [Acquire; Release]))
  end.
Proof.
  destruct v; unfold_request; cbn;
    destruct (py_mul_int_float (c_quantity o) (c_unit_price o)); cbn;
    unfold created_row;
    try (destruct (insert_error (db w) _); cbn);
    rewrite <- ?app_assoc; reflexivity.
Qed.

(** A refused INSERT is answered 500. *)
Lemma insert_error_500 t r e :
  insert_error t r = Some e -> to_response (Err e) = mkResponse 500 BServerError.
Proof.
  unfold insert_error.
  destruct (negb (forallb utf8_encodable (item_name r)));
    [intros H; injection H as <-; reflexivity|].
  destruct (existsb (fun c => c =? 0) (item_name r));
    [intros H; injection H as <-; reflexivity|].
  destruct (negb ((int4_min <=? quantity r) && (quantity r <=? int4_max)));
    [intros H; injection H as <-; reflexivity|].
  destruct (int4_max <? next_id t); [intros H; injection H as <-; reflexivity|].
  discriminate.
Qed.


Lemma find_id_none (k : Z) l :
  find (fun r => id r =? k) l = None <-> ~ (exists r, In r l /\ id r = k).
Proof.
  split.
  - intros H [r [Hin Hk]]. apply (find_none _ _ H) in Hin.
    rewrite Hk, Z.eqb_refl in Hin. discriminate.
  - intros H. destruct (find (fun r => id r =? k) l) eqn:E; [|reflexivity].
    exfalso. apply find_some in E as [Hin Hk]. apply Z.eqb_eq in Hk. eauto.
Qed.

Lemma find_id_some (k : Z) l o :
  find (fun r => id r =? k) l = Some o -> In o l /\ id o = k.
Proof.
  intros E. apply find_some in E as [Hin Hk]. apply Z.eqb_eq in Hk. auto.
Qed.

(** ** Lemmas: session events *)

Definition session_event (e : Event) : bool :=
  match e with Acquire | Release => true | _ => false end.

(** A computation that only appends query, mutation and commit events to
    the trace: it never opens or closes a session itself. *)
Definition data_only {A} (m : M A) : Prop :=
  forall w, exists mid, trace (snd (m w)) = trace w ++ mid /\
                        forallb (fun e => negb (session_event e)) mid = true.

Lemma ret_data_only {A} (a : A) : data_only (ret a).
Proof. intros w. exists []. rewrite app_nil_r. auto. Qed.

Lemma raise_data_only {A} e : data_only (A := A) (raise e).
Proof. intros w. exists []. rewrite app_nil_r. auto. Qed.

Lemma get_table_data_only : data_only get_table.
Proof. intros w. exists []. rewrite app_nil_r. auto. Qed.

Lemma put_table_data_only t : data_only (put_table t).
Proof. intros w. exists []. rewrite app_nil_r. auto. Qed.

Lemma log_data_only e : session_event e = false -> data_only (log e).
Proof. intros He w. exists [e]. simpl. rewrite He. auto. Qed.

Lemma bind_data_only {A B} (m : M A) (k : A -> M B) :
  data_only m -> (forall a, data_only (k a)) -> data_only (bind m k).
Proof.
  intros Hm Hk w. unfold bind. destruct (Hm w) as [mid1 [H1 F1]].
  destruct (m w) as [[a|e] w'] eqn:E; simpl in H1 |- *.
  - destruct (Hk a w') as [mid2 [H2 F2]]. exists (mid1 ++ mid2).
    rewrite H2, H1, app_assoc, forallb_app, F1, F2. auto.
  - exists mid1. auto.
Qed.

Ltac data_only_tac :=
  repeat (cbv zeta; match goal with
  | |- data_only (bind _ _) => apply bind_data_only; [|intros ?]
  | |- data_only (ret _) => apply ret_data_only
  | |- data_only (raise _) => apply raise_data_only
  | |- data_only not_found => apply raise_data_only
  | |- data_only get_table => apply get_table_data_only
  | |- data_only (put_table _) => apply put_table_data_only
  | |- data_only (log _) => apply log_data_only; reflexivity
  | |- data_only (match ?x with _ => _ end) => destruct x
  | |- data_only (if ?b then _ else _) => destruct b
  end).

Lemma endpoint_data_only (req : Request) : data_only (endpoint req).
Proof.
  destruct req as [[] q|[] p|[] b|[] p]; unfold endpoint;
    unfold get_purchase_orders_legacy, get_purchase_orders_v1,
      get_purchase_orders_v2, query_int, query_opt_int,
      query_count, query_ordered, not_found, path_int, body_create,
      get_purchase_order_legacy, delete_purchase_order_legacy,
      create_purchase_order_legacy,
      get_purchase_order_v1, get_purchase_order_v2,
      delete_purchase_order_v1, delete_purchase_order_v2,
      create_purchase_order_v1, create_purchase_order_v2,
      query_first_by_id, add_commit_refresh, delete_commit, lift;
    data_only_tac.
Qed.

(** ** Lemmas: reads leave the table alone *)

Definition keeps_table {A} (m : M A) : Prop := forall w, db (snd (m w)) = db w.

Lemma bind_keeps_table {A B} (m : M A) (k : A -> M B) :
  keeps_table m -> (forall a, keeps_table (k a)) -> keeps_table (bind m k).
Proof.
  intros Hm Hk w. unfold bind. specialize (Hm w).
  destruct (m w) as [[a|e] w'] eqn:E; simpl in Hm |- *; [|exact Hm].
  rewrite Hk. exact Hm.
Qed.

Ltac keeps_table_tac :=
  repeat (cbv zeta; match goal with
  | |- keeps_table (bind _ _) => apply bind_keeps_table; [|intros ?]
  | |- keeps_table (match ?x with _ => _ end) => destruct x
  | |- keeps_table (if ?b then _ else _) => destruct b
  | |- keeps_table _ => intros ?; reflexivity
  end).

Lemma serve_read_keeps_table (req : Request) (w : World) :
  is_read req = true -> db (snd (serve req w)) = db w.
Proof.
  intros Hr.
  assert (H : keeps_table (endpoint req)).
  { destruct req as [[] q|[] p| |]; try discriminate; unfold endpoint;
      unfold get_purchase_orders_legacy, get_purchase_orders_v1,
        get_purchase_orders_v2, query_int, query_opt_int,
        query_count, query_ordered, path_int,
        get_purchase_order_legacy, get_purchase_order_v1,
        get_purchase_order_v2, query_first_by_id;
      keeps_table_tac. }
  unfold serve. destruct (parse_body req); [|reflexivity].
  unfold get_db, log. cbn.
  specialize (H (mkWorld (db w) (trace w ++ [Acquire]))).
  destruct (endpoint req (mkWorld (db w) (trace w ++ [Acquire]))) as [r w2].
  exact H.
Qed.

Lemma serve_all_reads (reqs : list Request) (w : World) :
  forallb is_read reqs = true -> db (serve_all reqs w) = db w.
Proof.
  revert w. induction reqs as [|r reqs IH]; intros w H; simpl; [reflexivity|].
  simpl in H. apply andb_true_iff in H as [Hr Hs].
  rewrite IH by exact Hs. apply serve_read_keeps_table, Hr.
Qed.

Lemma find_id_last (l : list PurchaseOrder) r :
  Forall (fun x => id x < id r) l ->
  find (fun x => id x =? id r) (l ++ [r]) = Some r.
Proof.
  induction 1 as [|x l Hx Hl IH]; simpl.
  - rewrite Z.eqb_refl. reflexivity.
  - destruct (id x =? id r) eqn:E; [apply Z.eqb_eq in E; lia| exact IH].
Qed.

(** ** Lemmas: how one request changes the table *)

(** A request either leaves the table as it was, or is a POST that
    answers 201 and appends the created row, or a DELETE that answers 204
    and removes the rows with the id of the row it found. *)
Lemma serve_table_cases (req : Request) (w : World) :
  db (snd (serve req w)) = db w \/
  (exists v o tp, req = PostReq v (BodyOk o) /\
     py_mul_int_float (c_quantity o) (c_unit_price o) = Ok tp /\
     status (fst (serve req w)) = 201 /\
     db (snd (serve req w)) =
       mkTable (rows (db w) ++ [created_row (db w) o tp]) (next_id (db w) + 1)) \/
  (exists v k o, req = DeleteReq v (RInt k) /\
     find (fun r => id r =? k) (rows (db w)) = Some o /\
     status (fst (serve req w)) = 204 /\
     db (snd (serve req w)) =
       mkTable (filter (fun x => negb (id x =? id o)) (rows (db w))) (next_id (db w))).
Proof.
  destruct req as [v q|v p|v [o| | |]|v [k|]].
  - left. apply serve_read_keeps_table. reflexivity.
  - left. apply serve_read_keeps_table. reflexivity.
  - rewrite serve_post.
    destruct (py_mul_int_float (c_quantity o) (c_unit_price o)) as [tp|e] eqn:E.
    + destruct (insert_error (db w) (created_row (db w) o tp)).
      * left. reflexivity.
      * right; left. exists v, o, tp. auto.
    + left. reflexivity.
  - left. destruct v; reflexivity.
  - left. reflexivity.
  - left. reflexivity.
  - rewrite serve_delete.
    destruct (find (fun r => id r =? k) (rows (db w))) as [o|] eqn:E.
    + right; right. exists v, k, o. auto.
    + left. reflexivity.
  - left. destruct v; reflexivity.
Qed.

Lemma NoDup_map_filter {A B} (f : A -> B) (p : A -> bool) l :
  NoDup (map f l) -> NoDup (map f (filter p l)).
Proof.
  induction l as [|a l IH]; simpl; intros H; [constructor|].
  inversion H as [|? ? Hnin Hnd]; subst.
  destruct (p a); simpl; [|auto].
  constructor; [|auto]. intros Hin. apply Hnin.
  apply in_map_iff in Hin as [x [Hx Hin]]. apply filter_In in Hin as [Hin _].
  rewrite <- Hx. apply in_map, Hin.
Qed.

(** One request keeps the table well formed. *)
Lemma serve_wf (req : Request) (w : World) :
  wf_table (db w) -> wf_table (db (snd (serve req w))).
Proof.
  intros [Hnd Hlt].
  destruct (serve_table_cases req w)
    as [->|[[v [o [tp [_ [_ [_ ->]]]]]]|[v [k [o [_ [_ [_ ->]]]]]]]].
  - split; assumption.
  - split; simpl.
    + rewrite map_app. simpl. apply NoDup_app; [exact Hnd| repeat constructor; simpl; tauto|].
      intros x Hx [<-|[]]. apply in_map_iff in Hx as [y [Hy Hin]].
      rewrite Forall_forall in Hlt. specialize (Hlt y Hin). lia.
    + apply Forall_app. split.
      * eapply Forall_impl; [|exact Hlt]. simpl; intros; lia.
      * repeat constructor. simpl. lia.
  - split; simpl.
    + apply NoDup_map_filter, Hnd.
    + rewrite Forall_forall in *. intros x Hx. apply filter_In in Hx as [Hx _].
      auto.
Qed.

(** One request never lowers the id sequence, and every row it leaves
    that was not stored before has an id at or above the old sequence. *)
Lemma serve_fresh_ids (req : Request) (w : World) :
  next_id (db w) <= next_id (db (snd (serve req w))) /\
  forall r, In r (rows (db (snd (serve req w)))) ->
            In r (rows (db w)) \/ next_id (db w) <= id r.
Proof.
  destruct (serve_table_cases req w)
    as [->|[[v [o [tp [_ [_ [_ ->]]]]]]|[v [k [o [_ [_ [_ ->]]]]]]]].
  - split; [lia|]. auto.
  - split; simpl; [lia|]. intros r Hr. apply in_app_or in Hr as [Hr|[<-|[]]].
    + auto.
    + right. simpl. lia.
  - split; simpl; [lia|]. intros r Hr. apply filter_In in Hr as [Hr _]. auto.
Qed.

(** ** Lemmas: which events a computation emits *)

Definition mutation_event (e : Event) : bool :=
  match e with QInsert | QDelete | Commit => true | _ => false end.

(** A computation that appends to the trace only events satisfying [P]. *)
Definition emits_only (P : Event -> bool) {A} (m : M A) : Prop :=
  forall w, exists mid, trace (snd (m w)) = trace w ++ mid /\ forallb P mid = true.

Lemma emits_only_pure (P : Event -> bool) {A} (m : M A) :
  (forall w, trace (snd (m w)) = trace w) -> emits_only P m.
Proof. intros H w. exists []. rewrite app_nil_r. auto. Qed.

Lemma emits_only_log (P : Event -> bool) e :
  P e = true -> emits_only P (log e).
Proof. intros He w. exists [e]. simpl. rewrite He. auto. Qed.

Lemma emits_only_bind (P : Event -> bool) {A B} (m : M A) (k : A -> M B) :
  emits_only P m -> (forall a, emits_only P (k a)) -> emits_only P (bind m k).
Proof.
  intros Hm Hk w. unfold bind. destruct (Hm w) as [mid1 [H1 F1]].
  destruct (m w) as [[a|e] w'] eqn:E; simpl in H1 |- *.
  - destruct (Hk a w') as [mid2 [H2 F2]]. exists (mid1 ++ mid2).
    rewrite H2, H1, app_assoc, forallb_app, F1, F2. auto.
  - exists mid1. auto.
Qed.

Ltac emits_only_tac :=
  repeat (cbv zeta; match goal with
  | |- emits_only _ (bind _ _) => apply emits_only_bind; [|intros ?]
  | |- emits_only _ (log _) => apply emits_only_log; reflexivity
  | |- emits_only _ (match ?x with _ => _ end) => destruct x
  | |- emits_only _ (if ?b then _ else _) => destruct b
  | |- emits_only _ _ => apply emits_only_pure; intros ?; reflexivity
  end).

(** ** Lemmas: offset pages *)

Lemma serve_list_offset (v : Version) (w : World) (page per_page : Z)
    (c l : option Raw) :
  v <> V2 -> 1 <= page -> 1 <= per_page <= 100 ->
  (page - 1) * per_page <= int8_max ->
  serve (ListReq v (mkQuery (Some (RInt page)) (Some (RInt per_page)) c l)) w =
  (mkResponse 200 (BSimplePage (mkSimplePage
     (firstn (Z.to_nat per_page)
        (skipn (Z.to_nat ((page - 1) * per_page)) (order_by_id (rows (db w)))))
     (Z.of_nat (List.length (rows (db w)))) page per_page
     ((Z.of_nat (List.length (rows (db w))) + per_page - 1) / per_page))),
   mkWorld (db w) (trace w ++ [Acquire; QCount; QSelect; Release])).
Proof.
  intros Hv Hp Hb Ho.
  destruct v; [| |congruence]; unfold serve, get_db, endpoint;
    cbn; bounds_true;
    unfold get_purchase_orders_legacy, get_purchase_orders_v1, query_ordered;
    cbn; bounds_true; cbn; rewrite filter_all_true by reflexivity;
    rewrite <- !app_assoc; reflexivity.
Qed.

(** An offset beyond [bigint] is answered 500. *)
Lemma serve_list_offset_big (v : Version) (w : World) (page per_page : Z)
    (c l : option Raw) :
  v <> V2 -> 1 <= page -> 1 <= per_page <= 100 ->
  int8_max < (page - 1) * per_page ->
  serve (ListReq v (mkQuery (Some (RInt page)) (Some (RInt per_page)) c l)) w =
  (mkResponse 500 BServerError,
   mkWorld (db w) (trace w ++ [Acquire; QCount; QSelect; Release])).
Proof.
  intros Hv Hp Hb Ho.
  assert (E : (int8_max <? (page - 1) * per_page) = true) by (apply Z.ltb_lt; exact Ho).
  destruct v; [| |congruence]; unfold serve, get_db, endpoint;
    cbn; bounds_true;
    unfold get_purchase_orders_legacy, get_purchase_orders_v1, query_ordered;
    cbn; rewrite E; cbn; rewrite <- !app_assoc; reflexivity.
Qed.

(** A page answered 200 has its offset within [bigint]. *)
Lemma serve_list_offset_200 (v : Version) (w : World) (page per_page : Z)
    (c l : option Raw) :
  v <> V2 -> 1 <= page -> 1 <= per_page <= 100 ->
  status (fst (serve (ListReq v (mkQuery (Some (RInt page)) (Some (RInt per_page)) c l)) w))
    = 200 ->
  (page - 1) * per_page <= int8_max.
Proof.
  intros Hv Hp Hb H200.
  destruct (Z.le_gt_cases ((page - 1) * per_page) int8_max) as [Ho|Ho]; [exact Ho|].
  rewrite serve_list_offset_big in H200 by (auto; lia). discriminate.
Qed.

(** Rewrites an offset page answered 200 in hypothesis [H]. *)
Ltac offset_page_200 H :=
  match type of H with
  | fst (serve (ListReq ?v (mkQuery (Some (RInt ?p)) (Some (RInt ?n)) ?c ?l)) ?w)
      = mkResponse 200 _ =>
      let Ho := fresh "Ho" in
      assert (Ho : (p - 1) * n <= int8_max)
        by (apply (serve_list_offset_200 v w p n c l);
            [assumption| lia| lia| rewrite H; reflexivity]);
      rewrite (serve_list_offset v w p n c l) in H
        by first [assumption | lia]
  end.



(** ** Lemmas: v2 pages and later writes *)

Lemma py_mul_int_float_err n x e :
  py_mul_int_float n x = Err e -> e = OverflowError.
Proof.
  unfold py_mul_int_float, float_of_int.
  destruct (binary_normalize prec emax n 0 false); congruence.
Qed.

Lemma insert_by_id_app_last x s r :
  id x < id r -> insert_by_id x (s ++ [r]) = insert_by_id x s ++ [r].
Proof.
  intros Hx. induction s as [|y s IH]; simpl.
  - rewrite (proj2 (Z.leb_le _ _) (Z.lt_le_incl _ _ Hx)). reflexivity.
  - destruct (id x <=? id y); [reflexivity|]. rewrite IH. reflexivity.
Qed.

(** A row above every stored id goes last in id order. *)
Lemma order_by_id_app_last l r :
  Forall (fun x => id x < id r) l ->
  order_by_id (l ++ [r]) = order_by_id l ++ [r].
Proof.
  induction 1 as [|x l Hx Hl IH]; [reflexivity|].
  simpl. rewrite IH. apply insert_by_id_app_last, Hx.
Qed.

Lemma filter_filter_implied {A} (f g : A -> bool) l :
  (forall x, f x = true -> g x = true) -> filter f (filter g l) = filter f l.
Proof.
  intros Hfg. induction l as [|x l IH]; [reflexivity|]. simpl.
  destruct (g x) eqn:Eg; simpl.
  - destruct (f x); rewrite IH; reflexivity.
  - destruct (f x) eqn:Ef; [rewrite (Hfg x Ef) in Eg; discriminate|exact IH].
Qed.

(** With distinct ids, a row is determined by its id. *)
Lemma NoDup_id_unique l r r' :
  NoDup (map id l) -> In r l -> In r' l -> id r = id r' -> r = r'.
Proof.
  induction l as [|x l IH]; [contradiction|].
  simpl. intros Hnd Hr Hr' Hid. inversion Hnd as [|? ? Hx Hnd']; subst.
  destruct Hr as [<-|Hr], Hr' as [<-|Hr']; auto.
  - exfalso. apply Hx. rewrite Hid. apply in_map, Hr'.
  - exfalso. apply Hx. rewrite <- Hid. apply in_map, Hr.
Qed.

Lemma find_id_wf l r k :
  NoDup (map id l) ->
  (find (fun x => id x =? k) l = Some r <-> In r l /\ id r = k).
Proof.
  intros Hnd. split; [apply find_id_some|].
  intros [Hin Hk]. destruct (find (fun x => id x =? k) l) as [r'|] eqn:E.
  - apply find_id_some in E as [Hin' Hk']. f_equal.
    apply (NoDup_id_unique l); auto. congruence.
  - exfalso. apply (proj1 (find_id_none k l) E). eauto.
Qed.

(** Deleting by the id of a stored row, with distinct ids, removes that
    one row and keeps the others in place. *)
Lemma filter_remove_unique l r :
  NoDup (map id l) -> In r l ->
  exists l1 l2, l = l1 ++ r :: l2 /\
    filter (fun x => negb (id x =? id r)) l = l1 ++ l2.
Proof.
  induction l as [|x l IH]; [contradiction|].
  simpl. intros Hnd Hin. inversion Hnd as [|? ? Hx Hnd']; subst.
  destruct Hin as [<-|Hin].
  - exists [], l. split; [reflexivity|].
    rewrite Z.eqb_refl. simpl. apply filter_all_true.
    intros y Hy. apply negb_true_iff, Z.eqb_neq. intros Hyx.
    apply Hx. rewrite <- Hyx. apply in_map, Hy.
  - destruct (IH Hnd' Hin) as [l1 [l2 [-> Hf]]].
    exists (x :: l1), l2. split; [reflexivity|].
    assert (Hxr : id x <> id r).
    { intros E. apply Hx. rewrite E. apply in_map, in_or_app. right. left. reflexivity. }
    apply Z.eqb_neq in Hxr. rewrite Hxr. simpl. rewrite Hf. reflexivity.
Qed.

Lemma ceil_div_past_end (n b p : Z) :
  0 <= n -> 1 <= b ->
  (n <= (p - 1) * b <-> (n + b - 1) / b < p).
Proof.
  intros Hn Hb.
  pose proof (Z.div_mod (n + b - 1) b ltac:(lia)) as Hdm.
  pose proof (Z.mod_pos_bound (n + b - 1) b ltac:(lia)) as Hr.
  set (q := (n + b - 1) / b) in *. set (r := (n + b - 1) mod b) in *.
  split; intros H; nia.
Qed.

Lemma in_firstn_l {A} n (l : list A) x : In x (firstn n l) -> In x l.
Proof. intros H. rewrite <- (firstn_skipn n l). apply in_or_app. auto. Qed.

Lemma in_skipn_l {A} n (l : list A) x : In x (skipn n l) -> In x l.
Proof. intros H. rewrite <- (firstn_skipn n l). apply in_or_app. auto. Qed.

Lemma StronglySorted_skipn {A} (R : A -> A -> Prop) n l :
  StronglySorted R l -> StronglySorted R (skipn n l).
Proof.
  revert l. induction n as [|n IH]; intros [|a l] Hs; simpl; auto.
  inversion Hs; subst. apply IH. assumption.
Qed.

Lemma serve_all_next_id_mono (reqs : list Request) (w : World) :
  next_id (db w) <= next_id (db (serve_all reqs w)).
Proof.
  revert w. induction reqs as [|q reqs IH]; intros w; simpl; [lia|].
  destruct (serve_fresh_ids q w) as [Hmono _].
  specialize (IH (snd (serve q w))). lia.
Qed.

Lemma last_opt_app {A} (l1 l2 : list A) :
  l2 <> [] -> last_opt (l1 ++ l2) = last_opt l2.
Proof.
  intros H2. induction l1 as [|a l1 IH]; [reflexivity|].
  simpl. rewrite IH. destruct (l1 ++ l2) eqn:E; [|reflexivity].
  apply app_eq_nil in E as [_ E]. contradiction.
Qed.

(** ** Claims *)








(** C5: for an id with no stored row, single-item GET and DELETE (any
    version) answer 404 and leave the table as it was; for an id with a
    stored row, DELETE answers 204 and no row with that id remains, so a
    second DELETE of that id (any version) answers 404. *)
Theorem missing_404_delete_twice (v v' : Version) (w : World) (k : Z) :
  (~ (exists r, In r (rows (db w)) /\ id r = k) ->
     fst (serve (GetReq v (RInt k)) w) = not_found_response /\
     db (snd (serve (GetReq v (RInt k)) w)) = db w /\
     fst (serve (DeleteReq v (RInt k)) w) = not_found_response /\
     db (snd (serve (DeleteReq v (RInt k)) w)) = db w) /\
  ((exists r, In r (rows (db w)) /\ id r = k) ->
     let '(resp1, w1) := serve (DeleteReq v (RInt k)) w in
     status resp1 = 204 /\
     ~ (exists r, In r (rows (db w1)) /\ id r = k) /\
     status (fst (serve (DeleteReq v' (RInt k)) w1)) = 404).
Proof.
  split.
  - intros Hno. apply find_id_none in Hno.
    rewrite serve_get, serve_delete, Hno. cbn. auto.
  - intros Hyes. rewrite serve_delete.
    destruct (find (fun r => id r =? k) (rows (db w))) as [o|] eqn:E.
    + apply find_id_some in E as [_ Ho]. cbn [fst snd status db rows].
      assert (Hgone : ~ (exists r, In r (filter (fun x => negb (id x =? id o))
                                               (rows (db w))) /\ id r = k)).
      { intros [r [Hin Hr]]. apply filter_In in Hin as [_ Hneq].
        rewrite Hr, Ho, Z.eqb_refl in Hneq. discriminate. }
      split; [reflexivity|]. split; [exact Hgone|].
      rewrite serve_delete.
      apply find_id_none in Hgone. cbn in Hgone |- *. rewrite Hgone.
      reflexivity.
    + apply find_id_none in E. contradiction.
Qed.

Lemma missing_404_delete_twice_witness :
  (~ (exists r, In r (rows (db sample_world)) /\ id r = 7)) /\
  (fst (serve (GetReq V2 (RInt 7)) sample_world) = not_found_response /\
   db (snd (serve (GetReq V2 (RInt 7)) sample_world)) = db sample_world /\
   fst (serve (DeleteReq V2 (RInt 7)) sample_world) = not_found_response /\
   db (snd (serve (DeleteReq V2 (RInt 7)) sample_world)) = db sample_world) /\
  (exists r, In r (rows (db sample_world)) /\ id r = 2) /\
  (let '(resp1, w1) := serve (DeleteReq Legacy (RInt 2)) sample_world in
   status resp1 = 204 /\
   ~ (exists r, In r (rows (db w1)) /\ id r = 2) /\
   status (fst (serve (DeleteReq V1 (RInt 2)) w1)) = 404).
Proof.
  assert (Hno : ~ (exists r, In r (rows (db sample_world)) /\ id r = 7)).
  { apply find_id_none. reflexivity. }
  assert (Hyes : exists r, In r (rows (db sample_world)) /\ id r = 2).
  { exists (sample_row 2). simpl. auto. }
  split; [exact Hno|]. split.
  - exact (proj1 (missing_404_delete_twice V2 V2 sample_world 7) Hno).
  - split; [exact Hyes|].
    exact (proj2 (missing_404_delete_twice Legacy V1 sample_world 2) Hyes).
Defined.

(** C6: the legacy endpoints answer every request exactly as the v1 ones
    (same response, same effect on the world), and single-item GET, POST
    and DELETE answer identically in the legacy, v1 and v2 groups. *)
Theorem versions_equivalent (w : World) :
  (forall qp, serve (ListReq Legacy qp) w = serve (ListReq V1 qp) w) /\
  (forall v v' p, serve (GetReq v p) w = serve (GetReq v' p) w) /\
  (forall v v' b, serve (PostReq v b) w = serve (PostReq v' b) w) /\
  (forall v v' p, serve (DeleteReq v p) w = serve (DeleteReq v' p) w).
Proof.
  split; [|split; [|split]].
  - intros qp. reflexivity.
  - intros v v' [k|]; [rewrite !serve_get; reflexivity|].
    destruct v, v'; reflexivity.
  - intros v v' [o| | |]; [rewrite !serve_post; reflexivity|..];
      destruct v, v'; reflexivity.
  - intros v v' [k|]; [rewrite !serve_delete; reflexivity|].
    destruct v, v'; reflexivity.
Qed.

(** C7: an out-of-range [page] or [per_page] on the legacy or v1 list,
    an out-of-range [limit] on the v2 list, or a non-integer id on
    single-item GET or DELETE is answered 422; the session is opened and
    closed but no query or mutation is issued, and the table is unchanged. *)
Theorem invalid_params_rejected (w : World) :
  let rejected := (mkResponse 422 BValidationError,
                   mkWorld (db w) (trace w ++ [Acquire; Release])) in
  (forall v qp, v <> V2 ->
     (exists p, q_page qp = Some (RInt p) /\ p < 1) \/
     (exists n, q_per_page qp = Some (RInt n) /\ (n < 1 \/ 100 < n)) ->
     serve (ListReq v qp) w = rejected) /\
  (forall qp, (exists n, q_limit qp = Some (RInt n) /\ (n < 1 \/ 100 < n)) ->
     serve (ListReq V2 qp) w = rejected) /\
  (forall v, serve (GetReq v RNonInt) w = rejected /\
             serve (DeleteReq v RNonInt) w = rejected).
Proof.
  intros rejected. unfold rejected.
  split; [|split].
  - intros v [pg pp c l] Hv Hbad; simpl in Hbad.
    destruct Hbad as [[p [-> Hp]]|[n [-> Hn]]].
    + assert (E : (1 <=? p) = false) by (apply Z.leb_gt; lia).
      destruct v; [| |congruence]; unfold serve, get_db, endpoint, query_int;
        cbn; rewrite E; cbn; rewrite <- app_assoc; reflexivity.
    + assert (E : (1 <=? n) && (n <=? 100) = false).
      { destruct Hn as [Hn|Hn].
        - rewrite (proj2 (Z.leb_gt 1 n) Hn). reflexivity.
        - rewrite (proj2 (Z.leb_gt n 100) Hn), andb_false_r. reflexivity. }
      destruct v; [| |congruence]; unfold serve, get_db, endpoint, query_int;
        cbn; (destruct pg as [[p|]|]; cbn;
              [destruct (1 <=? p); cbn| |]);
        rewrite ?E; cbn; rewrite <- app_assoc; reflexivity.
  - intros [pg pp c l] [n [Hl Hn]]; simpl in Hl; subst.
    unfold serve, get_db, endpoint, query_int, query_opt_int; cbn.
    assert (E : (1 <=? n) && (n <=? 100) = false).
    { destruct Hn as [Hn|Hn].
      - rewrite (proj2 (Z.leb_gt 1 n) Hn). reflexivity.
      - rewrite (proj2 (Z.leb_gt n 100) Hn), andb_false_r. reflexivity. }
    destruct c as [[c|]|]; cbn; rewrite ?E; cbn; rewrite <- app_assoc;
      reflexivity.
  - intros v. split; destruct v; unfold_request; cbn;
      rewrite <- app_assoc; reflexivity.
Qed.

Lemma invalid_params_rejected_witness :
  let rejected := (mkResponse 422 BValidationError,
                   mkWorld (db sample_world) (trace sample_world ++ [Acquire; Release])) in
  let q1 := mkQuery (Some (RInt 0)) None None None in
  let q2 := mkQuery None None None (Some (RInt 101)) in
  (V1 <> V2 /\ ((exists p, q_page q1 = Some (RInt p) /\ p < 1) \/
                (exists n, q_per_page q1 = Some (RInt n) /\ (n < 1 \/ 100 < n))) /\
   serve (ListReq V1 q1) sample_world = rejected) /\
  ((exists n, q_limit q2 = Some (RInt n) /\ (n < 1 \/ 100 < n)) /\
   serve (ListReq V2 q2) sample_world = rejected) /\
  serve (GetReq Legacy RNonInt) sample_world = rejected.
Proof.
  intros rejected q1 q2.
  assert (H1 : (exists p, q_page q1 = Some (RInt p) /\ p < 1) \/
               (exists n, q_per_page q1 = Some (RInt n) /\ (n < 1 \/ 100 < n))).
  { left. exists 0. split; [reflexivity| lia]. }
  assert (H2 : exists n, q_limit q2 = Some (RInt n) /\ (n < 1 \/ 100 < n)).
  { exists 101. split; [reflexivity| lia]. }
  destruct (invalid_params_rejected sample_world) as [A [B C]].
  split; [split; [discriminate| split; [exact H1| exact (A V1 q1 ltac:(discriminate) H1)]]|].
  split; [split; [exact H2| exact (B q2 H2)]|].
  exact (proj1 (C Legacy)).
Defined.

(** C8 (corrected): every request except a POST whose body FastAPI
    cannot parse (text that is not JSON, or bytes it cannot decode),
    whatever its outcome (response, 404, 422 or an error raised by the
    handler), opens exactly one storage session and closes it last: its
    events are [Acquire], then only queries, mutations and commits, then
    [Release]. A POST whose body cannot be parsed is answered before the
    session dependency is solved: it opens no session and leaves the
    world as it was. *)
Theorem one_session_per_request (req : Request) (w : World) :
  match req with
  | PostReq _ BodyNotJson | PostReq _ BodyUndecodable => snd (serve req w) = w
  | _ =>
      exists mid,
        trace (snd (serve req w)) = trace w ++ Acquire :: mid ++ [Release] /\
        forallb (fun e => negb (session_event e)) mid = true
  end.
Proof.
  assert (H : parse_body req = Ok tt ->
    exists mid,
      trace (snd (serve req w)) = trace w ++ Acquire :: mid ++ [Release] /\
      forallb (fun e => negb (session_event e)) mid = true).
  { intros Hp. unfold serve. rewrite Hp. unfold get_db, log. cbn.
    destruct (endpoint_data_only req (mkWorld (db w) (trace w ++ [Acquire])))
      as [mid [Hmid Fmid]].
    destruct (endpoint req (mkWorld (db w) (trace w ++ [Acquire]))) as [r w2].
    simpl in Hmid |- *. exists mid. split; [|exact Fmid].
    rewrite Hmid, <- !app_assoc. reflexivity. }
  destruct req as [v q|v p|v [o| | |]|v p];
    solve [apply H; reflexivity | reflexivity].
Qed.

(** C8, counterexample: a POST whose body is not JSON is answered 422
    and no session is opened for it. *)
Lemma one_session_per_request_counterexample :
  serve (PostReq V1 BodyNotJson) sample_world
    = (mkResponse 422 BValidationError, sample_world) /\
  ~ In Acquire (trace (snd (serve (PostReq V1 BodyNotJson) sample_world))).
Proof. vm_compute. split; [reflexivity| tauto]. Qed.


(** C1: a create request on any endpoint group that is answered 201
    with a record [r] has stored [r], whose [quantity] and [unit_price]
    are the request's and whose [total_price] is [quantity * unit_price]
    as Python computes it at creation; later reads (lists and single-item
    GETs, any number, any version) leave the stored rows as they are, and
    a GET of the new id still returns that same record. *)
Theorem create_total_price (v : Version) (w : World) (o : PurchaseOrderCreate)
    (r : PurchaseOrder) :
  wf_table (db w) ->
  fst (serve (PostReq v (BodyOk o)) w) = mkResponse 201 (BOrder r) ->
  let w1 := snd (serve (PostReq v (BodyOk o)) w) in
  quantity r = c_quantity o /\ unit_price r = c_unit_price o /\
  py_mul_int_float (quantity r) (unit_price r) = Ok (total_price r) /\
  In r (rows (db w1)) /\
  forall reqs, forallb is_read reqs = true ->
    rows (db (serve_all reqs w1)) = rows (db w1) /\
    forall v', fst (serve (GetReq v' (RInt (id r))) (serve_all reqs w1))
               = mkResponse 200 (BOrder r).
Proof.
  intros [_ Hlt] H201 w1. unfold w1. rewrite serve_post in H201 |- *.
  destruct (py_mul_int_float (c_quantity o) (c_unit_price o)) as [tp|e] eqn:E.
  - destruct (insert_error (db w) (created_row (db w) o tp)) as [e|] eqn:I.
    + rewrite (insert_error_500 _ _ _ I) in H201. discriminate.
    + injection H201 as <-. cbn [fst snd db rows].
      split; [reflexivity|]. split; [reflexivity|]. split; [exact E|]. split.
      * apply in_or_app. right. left. reflexivity.
      * intros reqs Hreqs. rewrite serve_all_reads by exact Hreqs.
        split; [reflexivity|]. intros v'. rewrite serve_get.
        rewrite serve_all_reads by exact Hreqs.
        pose proof (find_id_last (rows (db w)) (created_row (db w) o tp) Hlt) as Hf.
        cbn in Hf |- *. rewrite Hf. reflexivity.
  - apply py_mul_int_float_err in E. subst e. discriminate.
Qed.

Lemma create_total_price_witness :
  let r := mkPurchaseOrder 4 (py_str "Widget") 19723 19732 4 2.5%float 10%float in
  let w1 := snd (serve (PostReq V2 (BodyOk widget)) sample_world) in
  wf_table (db sample_world) /\
  fst (serve (PostReq V2 (BodyOk widget)) sample_world) = mkResponse 201 (BOrder r) /\
  quantity r = c_quantity widget /\ unit_price r = c_unit_price widget /\
  py_mul_int_float (quantity r) (unit_price r) = Ok (total_price r) /\
  In r (rows (db w1)) /\
  forall reqs, forallb is_read reqs = true ->
    rows (db (serve_all reqs w1)) = rows (db w1) /\
    forall v', fst (serve (GetReq v' (RInt (id r))) (serve_all reqs w1))
               = mkResponse 200 (BOrder r).
Proof.
  intros r w1.
  assert (Hwf : wf_table (db sample_world)).
  { split; simpl.
    - repeat constructor; simpl; intuition lia.
    - repeat constructor; simpl; lia. }
  assert (H201 : fst (serve (PostReq V2 (BodyOk widget)) sample_world)
                 = mkResponse 201 (BOrder r)) by (vm_compute; reflexivity).
  split; [exact Hwf|]. split; [exact H201|].
  exact (create_total_price V2 sample_world widget r Hwf H201).
Defined.




(** The spec's scenarios, evaluated. *)
Example widget_scenario :
  let '(r1, w1) := serve (PostReq V1 (BodyOk widget)) empty_world in
  let created := mkPurchaseOrder 1 (py_str "Widget") 19723 19732 4 2.5%float 10%float in
  r1 = mkResponse 201 (BOrder created) /\
  fst (serve (GetReq V1 (RInt 1)) w1) = mkResponse 200 (BOrder created) /\
  let '(r3, w3) := serve (DeleteReq V1 (RInt 1)) w1 in
  status r3 = 204 /\ status (fst (serve (GetReq V1 (RInt 1)) w3)) = 404.
Proof. vm_compute. repeat split. Qed.

Example fifteen_rows_scenario :
  let w := serve_all (repeat (PostReq V2 (BodyOk widget)) 15) empty_world in
  match body (fst (serve (ListReq V2 (v2_query None 10)) w)),
        body (fst (serve (ListReq V2 (v2_query (Some 10) 10)) w)) with
  | BCursorPage p1, BCursorPage p2 =>
      map id (cp_data p1) = [1;2;3;4;5;6;7;8;9;10] /\
      cp_next_cursor p1 = Some 10 /\ cp_has_more p1 = true /\
      map id (cp_data p2) = [11;12;13;14;15] /\
      cp_next_cursor p2 = None /\ cp_has_more p2 = false
  | _, _ => False
  end.
Proof. vm_compute. repeat split. Qed.

(** ** Further properties of the service *)

(** Every sequence of requests keeps the table well formed: ids stay
    unique and below the id sequence. *)
Theorem serve_all_wf (reqs : list Request) (w : World) :
  wf_table (db w) -> wf_table (db (serve_all reqs w)).
Proof.
  revert w. induction reqs as [|r reqs IH]; intros w H; simpl; [exact H|].
  apply IH, serve_wf, H.
Qed.

Lemma serve_all_wf_witness :
  wf_table (db sample_world) /\
  wf_table (db (serve_all [PostReq V1 (BodyOk widget); DeleteReq V2 (RInt 1);
                           PostReq Legacy (BodyOk widget)] sample_world)).
Proof.
  assert (Hwf : wf_table (db sample_world)).
  { split; simpl.
    - repeat constructor; simpl; intuition lia.
    - repeat constructor; simpl; lia. }
  split; [exact Hwf|]. apply serve_all_wf, Hwf.
Defined.

(** Ids are never reused: after any sequence of requests the id sequence
    has not gone down, and a stored row whose id is below the sequence's
    earlier value was already stored then (a deleted id is never given to
    a new row). *)
Theorem serve_all_ids_not_reused (reqs : list Request) (w : World) :
  next_id (db w) <= next_id (db (serve_all reqs w)) /\
  forall r, In r (rows (db (serve_all reqs w))) -> id r < next_id (db w) ->
            In r (rows (db w)).
Proof.
  revert w. induction reqs as [|q reqs IH]; intros w; simpl.
  - split; [lia| auto].
  - destruct (serve_fresh_ids q w) as [Hmono Hfresh].
    destruct (IH (snd (serve q w))) as [Hmono' Hold].
    split; [lia|]. intros r Hin Hlt.
    destruct (Hfresh r (Hold r Hin ltac:(lia))) as [H|H]; [exact H| lia].
Qed.

Lemma serve_all_ids_not_reused_witness :
  let reqs := [DeleteReq V1 (RInt 3); PostReq V1 (BodyOk widget)] in
  In (sample_row 1) (rows (db (serve_all reqs sample_world))) /\
  id (sample_row 1) < next_id (db sample_world) /\
  In (sample_row 1) (rows (db sample_world)).
Proof.
  intros reqs.
  assert (Hin : In (sample_row 1) (rows (db (serve_all reqs sample_world)))).
  { vm_compute. auto. }
  assert (Hlt : id (sample_row 1) < next_id (db sample_world)) by (simpl; lia).
  split; [exact Hin|]. split; [exact Hlt|].
  exact (proj2 (serve_all_ids_not_reused reqs sample_world) _ Hin Hlt).
Defined.



(** Reads never write: a list or single-item GET request (any version,
    any parameters, any outcome) leaves the table as it was and sends no
    INSERT, DELETE or COMMIT to the storage session. *)
Theorem reads_never_write (req : Request) (w : World) :
  is_read req = true ->
  db (snd (serve req w)) = db w /\
  exists mid, trace (snd (serve req w)) = trace w ++ mid /\
              forallb (fun e => negb (mutation_event e)) mid = true.
Proof.
  intros Hr. split; [apply serve_read_keeps_table, Hr|].
  assert (H : emits_only (fun e => negb (mutation_event e)) (endpoint req)).
  { destruct req as [[] q|[] p| |]; try discriminate; unfold endpoint;
      unfold get_purchase_orders_legacy, get_purchase_orders_v1,
        get_purchase_orders_v2, query_int, query_opt_int,
        query_count, query_ordered, path_int,
        get_purchase_order_legacy, get_purchase_order_v1,
        get_purchase_order_v2, query_first_by_id;
      emits_only_tac. }
  assert (Hp : parse_body req = Ok tt)
    by (destruct req; try discriminate; reflexivity).
  unfold serve. rewrite Hp. unfold get_db, log. cbn.
  destruct (H (mkWorld (db w) (trace w ++ [Acquire]))) as [mid [Hmid Fmid]].
  destruct (endpoint req (mkWorld (db w) (trace w ++ [Acquire]))) as [r w2].
  simpl in Hmid |- *. exists (Acquire :: mid ++ [Release]).
  rewrite Hmid, <- !app_assoc. split; [reflexivity|].
  simpl. rewrite forallb_app, Fmid. reflexivity.
Qed.

Lemma reads_never_write_witness :
  is_read (GetReq V1 (RInt 2)) = true /\
  db (snd (serve (GetReq V1 (RInt 2)) sample_world)) = db sample_world /\
  exists mid, trace (snd (serve (GetReq V1 (RInt 2)) sample_world))
                = trace sample_world ++ mid /\
              forallb (fun e => negb (mutation_event e)) mid = true.
Proof.
  split; [reflexivity|]. apply reads_never_write. reflexivity.
Defined.

(** Validation of bodies and integer parameters: a POST whose body is
    read but does not validate, a legacy or v1 list whose [page] or
    [per_page] is not an integer, or a v2 list whose [cursor] or [limit]
    is not an integer, is answered 422, the session opened and closed with
    no query or mutation in between and the table unchanged; a POST whose
    JSON body is not JSON is answered 422 and one whose body cannot be
    decoded 400, before any session is opened, the world unchanged. *)
Theorem malformed_input_rejected (w : World) :
  let rejected := (mkResponse 422 BValidationError,
                   mkWorld (db w) (trace w ++ [Acquire; Release])) in
  (forall v, serve (PostReq v BodyInvalid) w = rejected) /\
  (forall v, serve (PostReq v BodyNotJson) w = (mkResponse 422 BValidationError, w)) /\
  (forall v, serve (PostReq v BodyUndecodable) w
             = (mkResponse 400 (BDetail "There was an error parsing the body"), w)) /\
  (forall v qp, v <> V2 ->
     q_page qp = Some RNonInt \/ q_per_page qp = Some RNonInt ->
     serve (ListReq v qp) w = rejected) /\
  (forall qp, q_cursor qp = Some RNonInt \/ q_limit qp = Some RNonInt ->
     serve (ListReq V2 qp) w = rejected).
Proof.
  intros rejected. unfold rejected. split; [|split; [|split; [|split]]].
  - intros v. destruct v; unfold_request; cbn; rewrite <- app_assoc; reflexivity.
  - intros v. reflexivity.
  - intros v. reflexivity.
  - intros v [pg pp c l] Hv Hbad; simpl in Hbad.
    destruct v; [| |congruence]; unfold serve, get_db, endpoint, query_int; cbn;
      (destruct Hbad as [->| ->];
       [cbn; rewrite <- app_assoc; reflexivity|]);
      (destruct pg as [[p|]|]; cbn; [destruct (1 <=? p); cbn| |]);
      rewrite <- app_assoc; reflexivity.
  - intros [pg pp c l] Hbad; simpl in Hbad.
    unfold serve, get_db, endpoint, query_int, query_opt_int; cbn.
    destruct Hbad as [->| ->]; [cbn; rewrite <- app_assoc; reflexivity|].
    destruct c as [[c|]|]; cbn; rewrite <- app_assoc; reflexivity.
Qed.

Lemma malformed_input_rejected_witness :
  let q := mkQuery (Some (RInt 1)) (Some RNonInt) None None in
  V1 <> V2 /\ (q_page q = Some RNonInt \/ q_per_page q = Some RNonInt) /\
  serve (ListReq V1 q) sample_world =
    (mkResponse 422 BValidationError,
     mkWorld (db sample_world) (trace sample_world ++ [Acquire; Release])).
Proof.
  intros q.
  assert (H : q_page q = Some RNonInt \/ q_per_page q = Some RNonInt)
    by (right; reflexivity).
  split; [discriminate|]. split; [exact H|].
  exact (proj1 (proj2 (proj2 (proj2 (malformed_input_rejected sample_world)))) V1 q
           ltac:(discriminate) H).
Defined.



(** A full v2 page is stable under creates: when a v2 list request
    answers [has_more = true], a successful POST (any version) in between
    does not change its answer, since the new row's id is above every
    stored id. *)
Theorem v2_full_page_stable_under_create (w : World) (v : Version)
    (o : PurchaseOrderCreate) (cursor : option Z) (limit : Z) (pg : PaginatedPurchaseOrderResponse) :
  wf_table (db w) -> 1 <= limit <= 100 ->
  fst (serve (ListReq V2 (v2_query cursor limit)) w) = mkResponse 200 (BCursorPage pg) ->
  cp_has_more pg = true ->
  status (fst (serve (PostReq v (BodyOk o)) w)) = 201 ->
  fst (serve (ListReq V2 (v2_query cursor limit)) (snd (serve (PostReq v (BodyOk o)) w)))
    = mkResponse 200 (BCursorPage pg).
Proof.
  intros [_ Hlt] Hb Hpg Hmore H201.
  rewrite serve_post in H201 |- *.
  destruct (py_mul_int_float (c_quantity o) (c_unit_price o)) as [tp|e] eqn:Em;
    [|apply py_mul_int_float_err in Em; subst e; discriminate].
  destruct (insert_error (db w) (created_row (db w) o tp)) as [ei|] eqn:Ei;
    [rewrite (insert_error_500 _ _ _ Ei) in H201; discriminate|]. cbn [snd].
  rewrite (serve_list_v2 w (v2_query cursor limit) cursor limit eq_refl eq_refl Hb)
    in Hpg.
  rewrite (serve_list_v2 _ (v2_query cursor limit) cursor limit eq_refl eq_refl Hb).
  cbn [db rows next_id]. rewrite filter_app.
  set (r := created_row (db w) o tp).
  set (F := filter (after cursor) (rows (db w))) in *.
  assert (HF : Forall (fun x => id x < id r) F).
  { apply Forall_forall. intros x Hx. unfold F in Hx.
    apply filter_In in Hx as [Hx _]. rewrite Forall_forall in Hlt.
    apply Hlt, Hx. }
  assert (Hsame : forall tail, (tail = [] \/ tail = [r]) ->
            order_by_id (F ++ tail) = order_by_id F ++ tail).
  { intros tail [->| ->]; [rewrite !app_nil_r; reflexivity|].
    apply order_by_id_app_last, HF. }
  rewrite Hsame by (simpl; destruct (after cursor r); auto).
  cbn [fst] in Hpg |- *. rewrite <- Hpg.
  destruct (Z.of_nat (List.length (order_by_id F)) >? limit) eqn:E.
  - apply Z.gtb_lt in E.
    assert (E' : (Z.of_nat (List.length (order_by_id F ++ filter (after cursor) [r]))
                  >? limit) = true).
    { apply Z.gtb_lt. rewrite length_app. lia. }
    rewrite E'.
    assert (Hfirst : firstn (Z.to_nat limit) (order_by_id F ++ filter (after cursor) [r])
                     = firstn (Z.to_nat limit) (order_by_id F)).
    { rewrite firstn_app.
      replace (Z.to_nat limit - List.length (order_by_id F))%nat with 0%nat by lia.
      rewrite app_nil_r. reflexivity. }
    rewrite Hfirst. reflexivity.
  - injection Hpg as Hpg. rewrite <- Hpg in Hmore. discriminate.
Qed.

Lemma v2_full_page_stable_under_create_witness :
  let w := sample_world in
  let pg := mkCursorPage [sample_row 1; sample_row 2] (Some 2) true in
  wf_table (db w) /\ 1 <= 2 <= 100 /\
  fst (serve (ListReq V2 (v2_query None 2)) w) = mkResponse 200 (BCursorPage pg) /\
  cp_has_more pg = true /\
  status (fst (serve (PostReq V1 (BodyOk widget)) w)) = 201 /\
  fst (serve (ListReq V2 (v2_query None 2)) (snd (serve (PostReq V1 (BodyOk widget)) w)))
    = mkResponse 200 (BCursorPage pg).
Proof.
  intros w pg.
  assert (Hwf : wf_table (db w)).
  { split; simpl.
    - repeat constructor; simpl; intuition lia.
    - repeat constructor; simpl; lia. }
  assert (Hpg : fst (serve (ListReq V2 (v2_query None 2)) w)
                = mkResponse 200 (BCursorPage pg)) by (vm_compute; reflexivity).
  assert (H201 : status (fst (serve (PostReq V1 (BodyOk widget)) w)) = 201)
    by (vm_compute; reflexivity).
  split; [exact Hwf|]. split; [lia|]. split; [exact Hpg|].
  split; [reflexivity|]. split; [exact H201|].
  exact (v2_full_page_stable_under_create w V1 widget None 2 pg Hwf
           ltac:(lia) Hpg eq_refl H201).
Defined.

(** Deletes at or below a v2 cursor do not move the page after it: a
    DELETE of id [k] (any version, whether it finds the row or not) leaves
    the answer of the v2 list for a cursor [c >= k] as it was. *)
Theorem v2_page_unmoved_by_earlier_delete (w : World) (v : Version)
    (k c limit : Z) :
  k <= c -> 1 <= limit <= 100 ->
  fst (serve (ListReq V2 (v2_query (Some c) limit)) (snd (serve (DeleteReq v (RInt k)) w)))
    = fst (serve (ListReq V2 (v2_query (Some c) limit)) w).
Proof.
  intros Hk Hb. rewrite serve_delete.
  rewrite (serve_list_v2 w (v2_query (Some c) limit) (Some c) limit eq_refl eq_refl Hb).
  destruct (find (fun r => id r =? k) (rows (db w))) as [o|] eqn:E;
    rewrite (serve_list_v2 _ (v2_query (Some c) limit) (Some c) limit eq_refl eq_refl Hb);
    cbn [snd fst db rows]; [|reflexivity].
  apply find_id_some in E as [_ Ho].
  rewrite filter_filter_implied; [reflexivity|].
  intros x Hx. simpl in Hx. apply Z.ltb_lt in Hx.
  apply negb_true_iff, Z.eqb_neq. lia.
Qed.

Lemma v2_page_unmoved_by_earlier_delete_witness :
  1 <= 1 /\ 1 <= 2 <= 100 /\
  fst (serve (ListReq V2 (v2_query (Some 1) 2))
         (snd (serve (DeleteReq V2 (RInt 1)) sample_world)))
    = fst (serve (ListReq V2 (v2_query (Some 1) 2)) sample_world).
Proof.
  split; [lia|]. split; [lia|].
  exact (v2_page_unmoved_by_earlier_delete sample_world V2 1 1 2 ltac:(lia) ltac:(lia)).
Defined.

(** On a well-formed table a GET (any version) answers 200 with a row
    exactly when that row is stored under the requested id. *)
Theorem get_answers_stored_row (w : World) (v : Version) (k : Z) (r : PurchaseOrder) :
  wf_table (db w) ->
  (fst (serve (GetReq v (RInt k)) w) = mkResponse 200 (BOrder r)
   <-> In r (rows (db w)) /\ id r = k).
Proof.
  intros [Hnd _]. rewrite serve_get. cbn [fst].
  rewrite <- (find_id_wf (rows (db w)) r k Hnd).
  destruct (find (fun x => id x =? k) (rows (db w))) as [r'|].
  - split; intros H; injection H as ->; reflexivity.
  - split; intros H; discriminate H.
Qed.

Lemma get_answers_stored_row_witness :
  wf_table (db sample_world) /\
  (fst (serve (GetReq V1 (RInt 2)) sample_world) = mkResponse 200 (BOrder (sample_row 2))
   <-> In (sample_row 2) (rows (db sample_world)) /\ id (sample_row 2) = 2).
Proof.
  assert (Hwf : wf_table (db sample_world)).
  { split; simpl.
    - repeat constructor; simpl; intuition lia.
    - repeat constructor; simpl; lia. }
  split; [exact Hwf|].
  exact (get_answers_stored_row sample_world V1 2 (sample_row 2) Hwf).
Defined.

(** Create then read back: on a well-formed table, after a POST answers
    201 with a row [r], a GET of [id r] (any version) answers 200 with
    that same row, and after a DELETE of [id r] it answers 404. *)
Theorem create_get_delete_roundtrip (w : World) (v v' v'' : Version)
    (o : PurchaseOrderCreate) (r : PurchaseOrder) :
  wf_table (db w) ->
  fst (serve (PostReq v (BodyOk o)) w) = mkResponse 201 (BOrder r) ->
  let w1 := snd (serve (PostReq v (BodyOk o)) w) in
  fst (serve (GetReq v' (RInt (id r))) w1) = mkResponse 200 (BOrder r) /\
  fst (serve (GetReq v' (RInt (id r))) (snd (serve (DeleteReq v'' (RInt (id r))) w1)))
    = not_found_response.
Proof.
  intros Hwf Hpost w1.
  assert (Hwf1 : wf_table (db w1)) by (apply serve_wf, Hwf).
  assert (Hin : In r (rows (db w1))).
  { unfold w1. rewrite serve_post in Hpost |- *.
    destruct (py_mul_int_float (c_quantity o) (c_unit_price o)) as [tp|e] eqn:Em;
      [|apply py_mul_int_float_err in Em; subst e; discriminate].
    destruct (insert_error (db w) (created_row (db w) o tp)) as [ei|] eqn:Ei;
      [rewrite (insert_error_500 _ _ _ Ei) in Hpost; discriminate|].
    injection Hpost as <-. cbn [snd db rows]. apply in_or_app. right. left. reflexivity. }
  split.
  - apply (get_answers_stored_row w1 v' (id r) r Hwf1). auto.
  - rewrite serve_delete.
    destruct (find (fun x => id x =? id r) (rows (db w1))) as [o'|] eqn:E.
    + apply find_id_some in E as [_ Ho']. cbn [snd].
      rewrite serve_get. cbn [fst db rows].
      replace (find _ _) with (@None PurchaseOrder); [reflexivity|].
      symmetry. apply find_id_none. intros [x [Hx Hxk]].
      apply filter_In in Hx as [_ Hx]. rewrite Hxk, Ho', Z.eqb_refl in Hx.
      discriminate.
    + exfalso. apply (proj1 (find_id_none (id r) _) E). eauto.
Qed.

Lemma create_get_delete_roundtrip_witness :
  wf_table (db sample_world) /\
  fst (serve (PostReq V1 (BodyOk widget)) sample_world) = mkResponse 201 (BOrder (sample_row 4)) /\
  fst (serve (GetReq V2 (RInt 4)) (snd (serve (PostReq V1 (BodyOk widget)) sample_world)))
    = mkResponse 200 (BOrder (sample_row 4)) /\
  fst (serve (GetReq V2 (RInt 4))
         (snd (serve (DeleteReq Legacy (RInt 4))
                 (snd (serve (PostReq V1 (BodyOk widget)) sample_world)))))
    = not_found_response.
Proof.
  assert (Hwf : wf_table (db sample_world)).
  { split; simpl.
    - repeat constructor; simpl; intuition lia.
    - repeat constructor; simpl; lia. }
  assert (Hpost : fst (serve (PostReq V1 (BodyOk widget)) sample_world)
                  = mkResponse 201 (BOrder (sample_row 4))) by (vm_compute; reflexivity).
  split; [exact Hwf|]. split; [exact Hpost|].
  exact (create_get_delete_roundtrip sample_world V1 V2 Legacy widget (sample_row 4) Hwf Hpost).
Defined.

(** An offset page (legacy or v1) has no rows exactly when it lies past
    the last page: [data] is empty iff [page > total_pages]. *)
Theorem offset_page_empty_iff_past_end (v : Version) (w : World)
    (page per_page : Z) (pg : SimplePaginatedPurchaseOrderResponse) :
  v <> V2 -> 1 <= page -> 1 <= per_page <= 100 ->
  fst (serve (ListReq v (offset_query page per_page)) w) = mkResponse 200 (BSimplePage pg) ->
  (sp_data pg = [] <-> sp_total_pages pg < page).
Proof.
  intros Hv Hp Hb Hr. unfold offset_query in Hr.
  offset_page_200 Hr.
  injection Hr as <-. cbn [sp_data sp_total_pages].
  rewrite <- ceil_div_past_end by lia.
  rewrite <- length_zero_iff_nil, length_firstn, length_skipn.
  pose proof (Permutation_length (order_by_id_perm (rows (db w)))) as Hlen.
  rewrite Hlen.
  assert (Hoff : 0 <= (page - 1) * per_page) by nia.
  set (off := (page - 1) * per_page) in *. lia.
Qed.

Lemma offset_page_empty_iff_past_end_witness :
  let pg := mkSimplePage [] 3 3 2 2 in
  V1 <> V2 /\ 1 <= 3 /\ 1 <= 2 <= 100 /\
  fst (serve (ListReq V1 (offset_query 3 2)) sample_world) = mkResponse 200 (BSimplePage pg) /\
  (sp_data pg = [] <-> sp_total_pages pg < 3).
Proof.
  intros pg.
  assert (Hr : fst (serve (ListReq V1 (offset_query 3 2)) sample_world)
               = mkResponse 200 (BSimplePage pg)) by (vm_compute; reflexivity).
  split; [discriminate|]. split; [lia|]. split; [lia|]. split; [exact Hr|].
  exact (offset_page_empty_iff_past_end V1 sample_world 3 2 pg
           ltac:(discriminate) ltac:(lia) ltac:(lia) Hr).
Defined.

(** A v2 page is empty exactly when no stored id lies above the cursor;
    it then answers [has_more = false] and no [next_cursor]. *)
Theorem v2_empty_page_iff_no_later_id (w : World) (c limit : Z) :
  1 <= limit <= 100 ->
  (fst (serve (ListReq V2 (v2_query (Some c) limit)) w)
     = mkResponse 200 (BCursorPage (mkCursorPage [] None false))
   <-> Forall (fun r => id r <= c) (rows (db w))).
Proof.
  intros Hb.
  rewrite (serve_list_v2 w (v2_query (Some c) limit) (Some c) limit eq_refl eq_refl Hb).
  cbn [fst].
  set (F := filter (after (Some c)) (rows (db w))).
  assert (HF : F = [] <-> Forall (fun r => id r <= c) (rows (db w))).
  { rewrite Forall_forall. split.
    - intros HF0 x Hx. destruct (c <? id x) eqn:E.
      + assert (In x F) as Hx' by (apply filter_In; auto).
        rewrite HF0 in Hx'. contradiction.
      + apply Z.ltb_ge in E. exact E.
    - intros H. apply filter_all_false. intros x Hx. simpl.
      apply Z.ltb_ge, H, Hx. }
  rewrite <- HF. split.
  - intros H. injection H as Hd _ _.
    destruct F as [|x l]; [reflexivity|exfalso].
    pose proof (Permutation_length (order_by_id_perm (x :: l))) as Hlen.
    destruct (order_by_id (x :: l)) as [|y m]; [discriminate Hlen|].
    destruct (Z.of_nat (List.length (y :: m)) >? limit); [|discriminate Hd].
    destruct (Z.to_nat limit) eqn:En; [lia|discriminate Hd].
  - intros ->. cbn.
    destruct (0 >? limit) eqn:E; [apply Z.gtb_lt in E; lia|reflexivity].
Qed.

Lemma v2_empty_page_iff_no_later_id_witness :
  1 <= 5 <= 100 /\
  (fst (serve (ListReq V2 (v2_query (Some 3) 5)) sample_world)
     = mkResponse 200 (BCursorPage (mkCursorPage [] None false))
   <-> Forall (fun r => id r <= 3) (rows (db sample_world))).
Proof.
  split; [lia|].
  exact (v2_empty_page_iff_no_later_id sample_world 3 5 ltac:(lia)).
Defined.


(** On a well-formed table, a DELETE of a stored row's id answers 204 and
    removes exactly that row, keeping the other rows in their order. *)
Theorem delete_removes_one_row (w : World) (v : Version) (r : PurchaseOrder) :
  wf_table (db w) -> In r (rows (db w)) ->
  fst (serve (DeleteReq v (RInt (id r))) w) = mkResponse 204 BEmpty /\
  exists l1 l2, rows (db w) = l1 ++ r :: l2 /\
    rows (db (snd (serve (DeleteReq v (RInt (id r))) w))) = l1 ++ l2.
Proof.
  intros [Hnd _] Hin. rewrite serve_delete.
  assert (Hf : find (fun x => id x =? id r) (rows (db w)) = Some r)
    by (apply find_id_wf; auto).
  rewrite Hf. split; [reflexivity|].
  apply filter_remove_unique; assumption.
Qed.

Lemma delete_removes_one_row_witness :
  wf_table (db sample_world) /\ In (sample_row 1) (rows (db sample_world)) /\
  fst (serve (DeleteReq V2 (RInt 1)) sample_world) = mkResponse 204 BEmpty /\
  exists l1 l2, rows (db sample_world) = l1 ++ sample_row 1 :: l2 /\
    rows (db (snd (serve (DeleteReq V2 (RInt 1)) sample_world))) = l1 ++ l2.
Proof.
  assert (Hwf : wf_table (db sample_world)).
  { split; simpl.
    - repeat constructor; simpl; intuition lia.
    - repeat constructor; simpl; lia. }
  assert (Hin : In (sample_row 1) (rows (db sample_world))) by (simpl; auto).
  split; [exact Hwf|]. split; [exact Hin|].
  exact (delete_removes_one_row sample_world V2 (sample_row 1) Hwf Hin).
Defined.

(** Offset pages (legacy or v1) of a well-formed table are ordered and
    disjoint: every row of an earlier page has a smaller id than every
    row of a later page read from the same table. *)
Theorem offset_pages_ordered (v : Version) (w : World) (p1 p2 per_page : Z)
    (pg1 pg2 : SimplePaginatedPurchaseOrderResponse) :
  wf_table (db w) -> v <> V2 -> 1 <= p1 < p2 -> 1 <= per_page <= 100 ->
  fst (serve (ListReq v (offset_query p1 per_page)) w) = mkResponse 200 (BSimplePage pg1) ->
  fst (serve (ListReq v (offset_query p2 per_page)) w) = mkResponse 200 (BSimplePage pg2) ->
  forall x y, In x (sp_data pg1) -> In y (sp_data pg2) -> id x < id y.
Proof.
  intros [Hnd _] Hv Hp Hb H1 H2 x y Hx Hy. unfold offset_query in H1, H2.
  offset_page_200 H1. offset_page_200 H2.
  injection H1 as <-. injection H2 as <-. cbn [sp_data] in Hx, Hy.
  set (L := order_by_id (rows (db w))) in *.
  set (k := Z.to_nat per_page) in *.
  set (s1 := Z.to_nat ((p1 - 1) * per_page)) in *.
  set (s2 := Z.to_nat ((p2 - 1) * per_page)) in *.
  assert (Hs : (s1 + k <= s2)%nat).
  { assert (0 <= (p1 - 1) * per_page) by nia.
    assert ((p1 - 1) * per_page + per_page <= (p2 - 1) * per_page) by nia.
    unfold s1, s2, k. lia. }
  set (L1 := skipn s1 L).
  assert (Hss : StronglySorted id_lt (firstn k L1 ++ skipn k L1)).
  { rewrite firstn_skipn. apply StronglySorted_skipn, order_by_id_strict, Hnd. }
  apply (StronglySorted_app_lt _ _ Hss); [exact Hx|].
  apply in_firstn_l in Hy.
  replace (skipn s2 L) with (skipn (s2 - (s1 + k)) (skipn k L1)) in Hy.
  - apply in_skipn_l in Hy. exact Hy.
  - unfold L1. rewrite !skipn_skipn. f_equal. lia.
Qed.

Lemma offset_pages_ordered_witness :
  let pg1 := mkSimplePage [sample_row 1; sample_row 2] 3 1 2 2 in
  let pg2 := mkSimplePage [sample_row 3] 3 2 2 2 in
  wf_table (db sample_world) /\ V1 <> V2 /\ 1 <= 1 < 2 /\ 1 <= 2 <= 100 /\
  fst (serve (ListReq V1 (offset_query 1 2)) sample_world) = mkResponse 200 (BSimplePage pg1) /\
  fst (serve (ListReq V1 (offset_query 2 2)) sample_world) = mkResponse 200 (BSimplePage pg2) /\
  (forall x y, In x (sp_data pg1) -> In y (sp_data pg2) -> id x < id y).
Proof.
  intros pg1 pg2.
  assert (Hwf : wf_table (db sample_world)).
  { split; simpl.
    - repeat constructor; simpl; intuition lia.
    - repeat constructor; simpl; lia. }
  assert (H1 : fst (serve (ListReq V1 (offset_query 1 2)) sample_world)
               = mkResponse 200 (BSimplePage pg1)) by (vm_compute; reflexivity).
  assert (H2 : fst (serve (ListReq V1 (offset_query 2 2)) sample_world)
               = mkResponse 200 (BSimplePage pg2)) by (vm_compute; reflexivity).
  split; [exact Hwf|]. split; [discriminate|]. split; [lia|]. split; [lia|].
  split; [exact H1|]. split; [exact H2|].
  exact (offset_pages_ordered V1 sample_world 1 2 2 pg1 pg2 Hwf
           ltac:(discriminate) ltac:(lia) ltac:(lia) H1 H2).
Defined.

(** Ids are never reused: after any sequence of requests (deletes
    included), a POST answering 201 hands out an id above the id of every
    row stored in a well-formed table at the start. *)
Theorem created_id_exceeds_earlier_ids (reqs : list Request) (w : World) (v : Version)
    (o : PurchaseOrderCreate) (r x : PurchaseOrder) :
  wf_table (db w) -> In x (rows (db w)) ->
  fst (serve (PostReq v (BodyOk o)) (serve_all reqs w)) = mkResponse 201 (BOrder r) ->
  id x < id r.
Proof.
  intros [_ Hlt] Hx Hpost. rewrite serve_post in Hpost.
  destruct (py_mul_int_float (c_quantity o) (c_unit_price o)) as [tp|e] eqn:Em;
    [|apply py_mul_int_float_err in Em; subst e; discriminate].
  destruct (insert_error (db (serve_all reqs w))
              (created_row (db (serve_all reqs w)) o tp)) as [ei|] eqn:Ei;
    [rewrite (insert_error_500 _ _ _ Ei) in Hpost; discriminate|].
  injection Hpost as <-. cbn [id created_row].
  rewrite Forall_forall in Hlt. specialize (Hlt x Hx).
  pose proof (serve_all_next_id_mono reqs w). lia.
Qed.

Lemma created_id_exceeds_earlier_ids_witness :
  let reqs := [DeleteReq V1 (RInt 3)] in
  wf_table (db sample_world) /\ In (sample_row 3) (rows (db sample_world)) /\
  fst (serve (PostReq V2 (BodyOk widget)) (serve_all reqs sample_world))
    = mkResponse 201 (BOrder (sample_row 4)) /\
  id (sample_row 3) < id (sample_row 4).
Proof.
  intros reqs.
  assert (Hwf : wf_table (db sample_world)).
  { split; simpl.
    - repeat constructor; simpl; intuition lia.
    - repeat constructor; simpl; lia. }
  assert (Hin : In (sample_row 3) (rows (db sample_world))) by (simpl; auto).
  assert (Hpost : fst (serve (PostReq V2 (BodyOk widget)) (serve_all reqs sample_world))
                  = mkResponse 201 (BOrder (sample_row 4))) by (vm_compute; reflexivity).
  split; [exact Hwf|]. split; [exact Hin|]. split; [exact Hpost|].
  exact (created_id_exceeds_earlier_ids reqs sample_world V2 widget
           (sample_row 4) (sample_row 3) Hwf Hin Hpost).
Defined.


(** The first v2 page (no cursor) and the first offset page (legacy or
    v1) with the same page size answer the same rows. *)
Theorem first_pages_agree (v : Version) (w : World) (n : Z)
    (pg : SimplePaginatedPurchaseOrderResponse) (cp : PaginatedPurchaseOrderResponse) :
  v <> V2 -> 1 <= n <= 100 ->
  fst (serve (ListReq v (offset_query 1 n)) w) = mkResponse 200 (BSimplePage pg) ->
  fst (serve (ListReq V2 (v2_query None n)) w) = mkResponse 200 (BCursorPage cp) ->
  sp_data pg = cp_data cp.
Proof.
  intros Hv Hb H1 H2. unfold offset_query in H1.
  offset_page_200 H1.
  rewrite (serve_list_v2 w (v2_query None n) None n eq_refl eq_refl Hb) in H2.
  injection H1 as <-. injection H2 as <-. cbn [sp_data cp_data].
  rewrite filter_all_true by reflexivity.
  replace ((1 - 1) * n) with 0 by lia. cbn [Z.to_nat skipn].
  destruct (Z.of_nat (List.length (order_by_id (rows (db w)))) >? n) eqn:E;
    [reflexivity|].
  apply firstn_all2. rewrite Z.gtb_ltb, Z.ltb_ge in E. lia.
Qed.

Lemma first_pages_agree_witness :
  let pg := mkSimplePage [sample_row 1; sample_row 2] 3 1 2 2 in
  let cp := mkCursorPage [sample_row 1; sample_row 2] (Some 2) true in
  V1 <> V2 /\ 1 <= 2 <= 100 /\
  fst (serve (ListReq V1 (offset_query 1 2)) sample_world) = mkResponse 200 (BSimplePage pg) /\
  fst (serve (ListReq V2 (v2_query None 2)) sample_world) = mkResponse 200 (BCursorPage cp) /\
  sp_data pg = cp_data cp.
Proof.
  intros pg cp.
  assert (H1 : fst (serve (ListReq V1 (offset_query 1 2)) sample_world)
               = mkResponse 200 (BSimplePage pg)) by (vm_compute; reflexivity).
  assert (H2 : fst (serve (ListReq V2 (v2_query None 2)) sample_world)
               = mkResponse 200 (BCursorPage cp)) by (vm_compute; reflexivity).
  split; [discriminate|]. split; [lia|]. split; [exact H1|]. split; [exact H2|].
  exact (first_pages_agree V1 sample_world 2 pg cp ltac:(discriminate) ltac:(lia) H1 H2).
Defined.

(** Switching from offset to cursor pagination mid-way: on a well-formed
    table, the v2 page whose cursor is the last id of offset page [p]
    (legacy or v1) has the same rows as offset page [p + 1]. *)
Theorem offset_then_cursor_agree (v : Version) (w : World) (p n : Z) (x : PurchaseOrder)
    (pg pg' : SimplePaginatedPurchaseOrderResponse) (cp : PaginatedPurchaseOrderResponse) :
  wf_table (db w) -> v <> V2 -> 1 <= p -> 1 <= n <= 100 ->
  fst (serve (ListReq v (offset_query p n)) w) = mkResponse 200 (BSimplePage pg) ->
  last_opt (sp_data pg) = Some x ->
  fst (serve (ListReq v (offset_query (p + 1) n)) w) = mkResponse 200 (BSimplePage pg') ->
  fst (serve (ListReq V2 (v2_query (Some (id x)) n)) w) = mkResponse 200 (BCursorPage cp) ->
  sp_data pg' = cp_data cp.
Proof.
  intros [Hnd _] Hv Hp Hb H1 Hx H2 H3. unfold offset_query in H1, H2.
  offset_page_200 H1. offset_page_200 H2.
  rewrite (serve_list_v2 w (v2_query (Some (id x)) n) (Some (id x)) n eq_refl eq_refl Hb)
    in H3.
  injection H1 as <-. injection H2 as <-. injection H3 as <-.
  cbn [sp_data cp_data] in Hx |- *.
  rewrite <- filter_order_by_id.
  set (L := order_by_id (rows (db w))) in *.
  set (s := Z.to_nat ((p - 1) * n)) in *.
  set (k := Z.to_nat n) in *.
  set (D := firstn k (skipn s L)) in *.
  set (B := skipn k (skipn s L)).
  assert (HL : L = (firstn s L ++ D) ++ B).
  { unfold D, B. rewrite <- app_assoc, !firstn_skipn. reflexivity. }
  assert (HD : D <> []) by (intros E; rewrite E in Hx; discriminate).
  assert (Hlast : last_opt (firstn s L ++ D) = Some x) by (rewrite last_opt_app; auto).
  assert (Hss : StronglySorted id_lt ((firstn s L ++ D) ++ B))
    by (rewrite <- HL; apply order_by_id_strict, Hnd).
  assert (HF : filter (after (Some (id x))) L = B)
    by (rewrite HL; apply filter_after_page; assumption).
  assert (Hnext : skipn (Z.to_nat ((p + 1 - 1) * n)) L = B).
  { unfold B. rewrite skipn_skipn. f_equal.
    assert (0 <= (p - 1) * n) by nia.
    replace ((p + 1 - 1) * n) with ((p - 1) * n + n) by ring.
    unfold s, k. lia. }
  rewrite HF, Hnext.
  destruct (Z.of_nat (List.length B) >? n) eqn:E; [reflexivity|].
  apply firstn_all2. rewrite Z.gtb_ltb, Z.ltb_ge in E. unfold k. lia.
Qed.

Lemma offset_then_cursor_agree_witness :
  let pg := mkSimplePage [sample_row 1; sample_row 2] 3 1 2 2 in
  let pg' := mkSimplePage [sample_row 3] 3 2 2 2 in
  let cp := mkCursorPage [sample_row 3] None false in
  wf_table (db sample_world) /\ V1 <> V2 /\ 1 <= 1 /\ 1 <= 2 <= 100 /\
  fst (serve (ListReq V1 (offset_query 1 2)) sample_world) = mkResponse 200 (BSimplePage pg) /\
  last_opt (sp_data pg) = Some (sample_row 2) /\
  fst (serve (ListReq V1 (offset_query (1 + 1) 2)) sample_world)
    = mkResponse 200 (BSimplePage pg') /\
  fst (serve (ListReq V2 (v2_query (Some (id (sample_row 2))) 2)) sample_world)
    = mkResponse 200 (BCursorPage cp) /\
  sp_data pg' = cp_data cp.
Proof.
  intros pg pg' cp.
  assert (Hwf : wf_table (db sample_world)).
  { split; simpl.
    - repeat constructor; simpl; intuition lia.
    - repeat constructor; simpl; lia. }
  assert (H1 : fst (serve (ListReq V1 (offset_query 1 2)) sample_world)
               = mkResponse 200 (BSimplePage pg)) by (vm_compute; reflexivity).
  assert (H2 : fst (serve (ListReq V1 (offset_query (1 + 1) 2)) sample_world)
               = mkResponse 200 (BSimplePage pg')) by (vm_compute; reflexivity).
  assert (H3 : fst (serve (ListReq V2 (v2_query (Some (id (sample_row 2))) 2)) sample_world)
               = mkResponse 200 (BCursorPage cp)) by (vm_compute; reflexivity).
  split; [exact Hwf|]. split; [discriminate|]. split; [lia|]. split; [lia|].
  split; [exact H1|]. split; [reflexivity|]. split; [exact H2|]. split; [exact H3|].
  exact (offset_then_cursor_agree V1 sample_world 1 2 (sample_row 2) pg pg' cp Hwf
           ltac:(discriminate) ltac:(lia) ltac:(lia) H1 eq_refl H2 H3).
Defined.
